(** * Gemini chat client: conversation store, request builder, retry loop

    A shallow embedding of [main.py]: the [Conversation] class, the request
    builder [create_message_content], the request/response handler
    [get_response] with its retry loop, and one iteration of the session loop
    of [main].  Python objects that are shared by reference (the list held in
    [Conversation.history]) live in an explicit store of list objects, so
    that aliasing is visible.  The network, the console, the clock and the
    standard input are explicit: the replies of [requests.post] are given by
    a function of the call number, [time.sleep] and [console.print] append to
    logs kept in the state; what rich raises when it cannot render a text
    made at run time is a parameter of the session loop. *)

From Stdlib Require Import ZArith QArith String Ascii List DecimalString Lia.
From stdpp Require Import base list strings.

Open Scope string_scope.
Open Scope list_scope.
Open Scope Z_scope.

(** ** Constants of [main.py] *)

Definition MAX_TOKENS : Z := 30720.
Definition RATE_LIMIT_DELAY : Z := 1.
Definition MAX_RETRIES : Z := 3.
Definition MODEL_NAME : string := "gemini-2.0-flash".

(** ** Python values

    The values that flow through the handler are the ones [response.json()]
    can produce.  A [dict] is an association list in which the first binding
    of a key is its value (its length is only ever compared with 0); floats
    are only tested for being zero.  A [str] is a sequence of 8-bit
    characters: the model covers text in which every character is one. *)

#[local] Unset Elimination Schemes.
Inductive json : Type :=
| JNull
| JBool (b : bool)
| JInt (z : Z)
| JFloat (q : Q)
| JStr (s : string)
| JArr (l : list json)
| JObj (o : list (string * json)).
#[local] Set Elimination Schemes.

(** [type(v).__name__], as it appears in the interpreter's messages. *)
Definition type_name (v : json) : string :=
  match v with
  | JNull => "NoneType"
  | JBool _ => "bool"
  | JInt _ => "int"
  | JFloat _ => "float"
  | JStr _ => "str"
  | JArr _ => "list"
  | JObj _ => "dict"
  end.

(** [bool(v)] *)
Definition truthy (v : json) : bool :=
  match v with
  | JNull => false
  | JBool b => b
  | JInt z => negb (z =? 0)
  | JFloat q => negb (Qnum q =? 0)
  | JStr s => negb (String.eqb s "")
  | JArr l => match l with [] => false | _ => true end
  | JObj o => match o with [] => false | _ => true end
  end.

Definition is_str (v : json) : bool :=
  match v with JStr _ => true | _ => false end.

(** [sub in s] on strings *)
Fixpoint str_in (sub s : string) : bool :=
  String.prefix sub s ||
  match s with
  | EmptyString => false
  | String _ s' => str_in sub s'
  end.

(** [d.get(k)] / [d[k]] on the association list of a dict *)
Fixpoint assoc (k : string) (o : list (string * json)) : option json :=
  match o with
  | [] => None
  | (k', v) :: o' => if String.eqb k k' then Some v else assoc k o'
  end.

(** ** Exceptions

    Only the position of an exception's class in the hierarchy matters to the
    handlers of [main.py], and the text [str(e)]. *)

Inductive exn_class :=
| RequestException      (* requests.exceptions.RequestException and subclasses *)
| OtherException        (* any other subclass of Exception *)
| KeyboardInterrupt
| OtherBaseException.   (* SystemExit, GeneratorExit *)

Record exn := Exn { exn_class_of : exn_class; exn_str : string }.

Definition is_Exception (e : exn) : bool :=
  match exn_class_of e with
  | RequestException | OtherException => true
  | KeyboardInterrupt | OtherBaseException => false
  end.

Definition is_RequestException (e : exn) : bool :=
  match exn_class_of e with
  | RequestException => true
  | _ => false
  end.

Inductive result (A : Type) : Type :=
| Ok (a : A)
| Raise (e : exn).
Arguments Ok {A} a.
Arguments Raise {A} e.

Definition bind {A B} (r : result A) (k : A -> result B) : result B :=
  match r with
  | Ok a => k a
  | Raise e => Raise e
  end.

Declare Scope py_scope.
Delimit Scope py_scope with py.
Notation "x <- r ;; k" := (bind r (fun x => k))
  (at level 100, r at next level, right associativity) : py_scope.

(** The exceptions the interpreter itself raises on the operations used by
    [get_response] (wording of CPython 3.12). *)
Definition KeyError (repr_key : string) : exn := Exn OtherException repr_key.
Definition TypeError (msg : string) : exn := Exn OtherException msg.
Definition AttributeError (msg : string) : exn := Exn OtherException msg.
Definition IndexError (msg : string) : exn := Exn OtherException msg.

Definition quoted (s : string) : string := "'" +:+ s +:+ "'".

(** [k in v] for a string [k] *)
Definition py_in (k : string) (v : json) : result bool :=
  match v with
  | JObj o => Ok (match assoc k o with Some _ => true | None => false end)
  | JArr l => Ok (existsb (fun x => match x with JStr s => String.eqb s k | _ => false end) l)
  | JStr s => Ok (str_in k s)
  | _ => Raise (TypeError ("argument of type " +:+ quoted (type_name v) +:+ " is not iterable"))
  end.

(** [v[k]] for a string [k] *)
Definition py_getitem (v : json) (k : string) : result json :=
  match v with
  | JObj o => match assoc k o with
              | Some x => Ok x
              | None => Raise (KeyError (quoted k))
              end
  | JArr _ => Raise (TypeError "list indices must be integers or slices, not str")
  | JStr _ => Raise (TypeError "string indices must be integers, not 'str'")
  | _ => Raise (TypeError (quoted (type_name v) +:+ " object is not subscriptable"))
  end.

(** [v[0]] *)
Definition py_getitem0 (v : json) : result json :=
  match v with
  | JArr (x :: _) => Ok x
  | JArr [] => Raise (IndexError "list index out of range")
  | JStr (String c _) => Ok (JStr (String c EmptyString))
  | JStr EmptyString => Raise (IndexError "string index out of range")
  | JObj _ => Raise (KeyError "0")
  | _ => Raise (TypeError (quoted (type_name v) +:+ " object is not subscriptable"))
  end.

(** [len(v)] *)
Definition py_len (v : json) : result Z :=
  match v with
  | JArr l => Ok (Z.of_nat (length l))
  | JObj o => Ok (Z.of_nat (length o))
  | JStr s => Ok (Z.of_nat (String.length s))
  | _ => Raise (TypeError ("object of type " +:+ quoted (type_name v) +:+ " has no len()"))
  end.

(** [v.get(k)] *)
Definition py_get (v : json) (k : string) : result json :=
  match v with
  | JObj o => Ok (match assoc k o with Some x => x | None => JNull end)
  | _ => Raise (AttributeError (quoted (type_name v) +:+ " object has no attribute 'get'"))
  end.

(** ** The world

    [lists] holds every Python list object created by [Conversation];
    [conv_history] is the reference stored in the attribute
    [conversation.history]. *)

Record msg := Msg { role : string; text : json }.

Inductive console_out :=
| Printed (s : string)            (* console.print(s) *)
| PrintedMarkdown (s : string).   (* console.print(Markdown(s)) *)

Record world := World {
  lists : list (list msg);
  conv_history : nat;
  calls : nat;                  (* requests.post calls issued so far *)
  sleeps : list Z;              (* arguments of time.sleep, oldest first *)
  console : list console_out    (* oldest first *)
}.

Definition set_lists (f : list (list msg) -> list (list msg)) (w : world) : world :=
  World (f (lists w)) (conv_history w) (calls w) (sleeps w) (console w).
Definition set_conv_history (l : nat) (w : world) : world :=
  World (lists w) l (calls w) (sleeps w) (console w).
Definition count_call (w : world) : world :=
  World (lists w) (conv_history w) (S (calls w)) (sleeps w) (console w).
Definition sleep (secs : Z) (w : world) : world :=
  World (lists w) (conv_history w) (calls w) (sleeps w ++ [secs]) (console w).
Definition log_output (o : console_out) (w : world) : world :=
  World (lists w) (conv_history w) (calls w) (sleeps w) (console w ++ [o]).

(** The content of the list object behind a reference. *)
Definition deref (w : world) (l : nat) : list msg := default [] (lists w !! l).

(** The reference is to an allocated list. *)
Definition wf (w : world) : Prop := (conv_history w < length (lists w))%nat.

(** ** class Conversation *)

Module Conversation.

(** [self.history = []] allocates a list object. *)
Definition init (w : world) : world :=
  set_conv_history (length (lists w)) (set_lists (fun ls => ls ++ [[]]) w).

(** [self.history.append({"role": role, "text": content})] *)
Definition add_message (role : string) (content : json) (w : world) : world :=
  set_lists (alter (fun h => h ++ [Msg role content]) (conv_history w)) w.

(** [return self.history]: the reference itself. *)
Definition get_messages (w : world) : nat := conv_history w.

(** [self.history = []] binds the attribute to a new list object. *)
Definition clear (w : world) : world :=
  set_conv_history (length (lists w)) (set_lists (fun ls => ls ++ [[]]) w).

End Conversation.

(** The Turns currently held by the conversation. *)
Definition history (w : world) : list msg := deref w (Conversation.get_messages w).

(** The world at process start, and after [conversation = Conversation()]. *)
Definition empty_world : world := World [] 0 0 [] [].
Definition session_start : world := Conversation.init empty_world.

(** ** create_message_content *)

Record part := Part { part_text : json }.
Record content_entry := Entry { entry_role : string; parts : list part }.
Record RequestPayload := Payload { contents : list content_entry }.

Definition entry_of (m : msg) : content_entry :=
  Entry (role m) [Part (text m)].

(** The [for] loop appends to the local list [contents]; the function
    returns the payload together with the world it leaves. *)
Definition create_message_content (new_message : string) (w : world)
  : RequestPayload * world :=
  let contents := [] in
  let contents :=
    fold_left (fun contents m => contents ++ [Entry (role m) [Part (text m)]])
              (deref w (Conversation.get_messages w)) contents in
  let contents := contents ++ [Entry "user" [Part (JStr new_message)]] in
  (Payload contents, w).

(** ** get_response *)

(** What [requests.post] gives back: a response object (its [status_code],
    the result of [response.json()] and [response.text]), or an exception. *)
Inductive reply :=
| Response (status_code : Z) (json_body : result json) (body_text : string)
| PostRaises (e : exn).

(** The remote end: the reply to the [n]-th call of the process (counting
    from 0), given the payload sent. *)
Definition network := nat -> RequestPayload -> reply.

(** The [return] statement a call leaves through. *)
Inductive outcome :=
| Success (response_text : json)              (* line 95 *)
| SafetyBlocked                               (* line 87 *)
| Empty                                       (* line 96 *)
| ModelNotFound                               (* line 98 *)
| RateLimited                                 (* line 103 *)
| HttpError (status_code : Z) (body : string) (* line 105 *)
| NetworkError (message : string)             (* line 111 *)
| ApiKeyError                                 (* line 116 *)
| OtherError (message : string)               (* line 118 *)
| Unexpected.                                 (* line 120 *)

(** [str(n)] for an int *)
Definition str_of_int (n : Z) : string := NilZero.string_of_int (Z.to_int n).

(** The value each [return] statement returns. *)
Definition returned (o : outcome) : json :=
  match o with
  | Success response_text => response_text
  | SafetyBlocked =>
      JStr "I apologize, but I cannot respond to that prompt due to safety concerns."
  | Empty => JStr "No response generated"
  | ModelNotFound =>
      JStr ("Error: Model '" +:+ MODEL_NAME +:+
            "' not found or not available. Please check the model name.")
  | RateLimited => JStr "Rate limit exceeded. Please try again later."
  | HttpError status_code body =>
      JStr ("Error: API returned status code " +:+ str_of_int status_code +:+
            ". Response: " +:+ body)
  | NetworkError message => JStr ("Network error: " +:+ message)
  | ApiKeyError =>
      JStr "Error: Please make sure you have set up your GOOGLE_API_KEY in the .env file"
  | OtherError message => JStr ("An error occurred: " +:+ message)
  | Unexpected => JStr "An unexpected error occurred"
  end.

(** Lines 84-96, up to the point where the conversation is written: what
    the body of a 200 response amounts to. *)
Inductive verdict :=
| Blocked
| Reply (response_text : json)
| NoReply.

Definition interpret (response_data : json) : result verdict :=
  (has_feedback <- py_in "promptFeedback" response_data ;;
   blocked <- (if has_feedback : bool then
                 feedback <- py_getitem response_data "promptFeedback" ;;
                 reason <- py_get feedback "blockReason" ;;
                 Ok (truthy reason)
               else Ok false) ;;
   if blocked : bool then Ok Blocked else
   has_candidates <- py_in "candidates" response_data ;;
   some_candidate <- (if has_candidates : bool then
                        candidates <- py_getitem response_data "candidates" ;;
                        n <- py_len candidates ;;
                        Ok (n >? 0)
                      else Ok false) ;;
   if some_candidate : bool then
     candidates <- py_getitem response_data "candidates" ;;
     candidate <- py_getitem0 candidates ;;
     content <- py_getitem candidate "content" ;;
     has_parts <- py_in "parts" content ;;
     some_part <- (if has_parts : bool then
                     parts <- py_getitem content "parts" ;;
                     n <- py_len parts ;;
                     Ok (n >? 0)
                   else Ok false) ;;
     if some_part : bool then
       parts <- py_getitem content "parts" ;;
       part <- py_getitem0 parts ;;
       response_text <- py_getitem part "text" ;;
       Ok (Reply response_text)
     else Ok NoReply
   else Ok NoReply)%py.

(** How a block of statements ends. *)
Inductive completion :=
| Normal (w : world)                 (* control goes on: [continue] in the
                                        loop body, the end of the loop *)
| Return (o : outcome) (w : world)   (* a [return] statement *)
| Raised (e : exn) (w : world).      (* an exception leaves the inner [try] *)

(** [except requests.exceptions.RequestException as e:] (lines 107-111) *)
Definition on_exception (attempt : Z) (e : exn) (w : world) : completion :=
  if is_RequestException e then
    if attempt <? MAX_RETRIES - 1 then Normal (sleep RATE_LIMIT_DELAY w)
    else Return (NetworkError (exn_str e)) w
  else Raised e w.

(** Lines 78-111: one attempt. *)
Definition attempt_body (net : network) (prompt : string) (data : RequestPayload)
           (attempt : Z) (w : world) : completion :=
  let w1 := count_call w in
  match net (calls w) data with
  | PostRaises e => on_exception attempt e w1
  | Response status_code json_body body_text =>
      if status_code =? 200 then
        match json_body with
        | Raise e => on_exception attempt e w1
        | Ok response_data =>
            match interpret response_data with
            | Raise e => on_exception attempt e w1
            | Ok Blocked => Return SafetyBlocked w1
            | Ok (Reply response_text) =>
                let w2 := Conversation.add_message "user" (JStr prompt) w1 in
                let w3 := Conversation.add_message "model" response_text w2 in
                Return (Success response_text) w3
            | Ok NoReply => Return Empty w1
            end
        end
      else if status_code =? 404 then Return ModelNotFound w1
      else if status_code =? 429 then
        if attempt <? MAX_RETRIES - 1 then
          Normal (sleep (RATE_LIMIT_DELAY * (attempt + 1)) w1)
        else Return RateLimited w1
      else Return (HttpError status_code body_text) w1
  end.

(** [range(n)] *)
Definition range (n : Z) : list Z := map Z.of_nat (seq 0 (Z.to_nat n)).

(** [for attempt in ...:] over the attempts still to make. *)
Fixpoint retry_loop (net : network) (prompt : string) (data : RequestPayload)
         (attempts : list Z) (w : world) : completion :=
  match attempts with
  | [] => Normal w
  | attempt :: rest =>
      match attempt_body net prompt data attempt w with
      | Normal w' => retry_loop net prompt data rest w'
      | c => c
      end
  end.

(** What the caller of [get_response] sees. *)
Inductive response :=
| Returns (o : outcome)
| Propagates (e : exn).

(** [except Exception as e:] (lines 113-118) *)
Definition on_Exception (e : exn) : response :=
  if is_Exception e then
    let error_message := exn_str e in
    if str_in "API key" error_message then Returns ApiKeyError
    else Returns (OtherError error_message)
  else Propagates e.

Definition get_response (net : network) (prompt : string) (w : world)
  : response * world :=
  let (data, w) := create_message_content prompt w in
  match retry_loop net prompt data (range MAX_RETRIES) w with
  | Return o w' => (Returns o, w')
  | Raised e w' => (on_Exception e, w')
  | Normal w' => (Returns Unexpected, w')   (* line 120 *)
  end.

(** ** The session loop of [main]

    A line of input is a sequence of characters with code points below 256,
    one per [ascii]; [strip], [lower] and [len] are Python's on such
    text.

    [console.print] renders its argument with rich before anything reaches
    the console.  The program's own literals are well-formed markup, which
    rich renders: printing one is [log_output].  A text made at run time (a
    reply, the text of an exception) may be markup rich cannot render, and
    then [console.print] raises: what it raises is the parameter
    [render_error] of the session. *)

Definition nl : string := String "010"%char EmptyString.

(** The characters [str.strip()] removes: those for which Python's
    [str.isspace()] holds, among the code points below 256 (tab to carriage
    return, the separators 28 to 31, the space, U+0085 and U+00A0). *)
Definition is_space (c : ascii) : bool :=
  let n := nat_of_ascii c in
  ((9 <=? n) && (n <=? 13) || (28 <=? n) && (n <=? 32)
   || (n =? 133) || (n =? 160))%nat.

Fixpoint lstrip (s : string) : string :=
  match s with
  | EmptyString => EmptyString
  | String c s' => if is_space c then lstrip s' else s
  end.

Definition strip (s : string) : string :=
  String.rev (lstrip (String.rev (lstrip s))).

(** [str.lower()] on one character below 256: the letters A to Z and the
    Latin-1 capitals U+00C0 to U+00DE, but for the sign U+00D7, move up by
    32. *)
Definition lower_char (c : ascii) : ascii :=
  let n := nat_of_ascii c in
  if ((65 <=? n) && (n <=? 90)
      || (192 <=? n) && (n <=? 222) && negb (n =? 215))%nat
  then ascii_of_nat (n + 32) else c.

Fixpoint lower (s : string) : string :=
  match s with
  | EmptyString => EmptyString
  | String c s' => String (lower_char c) (lower s')
  end.

(** [len(s)] *)
Definition len (s : string) : Z := Z.of_nat (String.length s).

(** What [input()] does: it returns a line or raises. *)
Inductive stdin_event :=
| Line (s : string)
| InputRaises (e : exn).

(** How an iteration of [while True:] ends. *)
Inductive ctl :=
| LoopOn
| Break
| Escapes (e : exn).

Definition print_welcome_message (w : world) : world :=
  let w := log_output (Printed (nl +:+ "[bold cyan]Welcome to Enhanced Gemini Chatbot![/bold cyan]")) w in
  let w := log_output (Printed ("[cyan]Using model: " +:+ MODEL_NAME +:+ "[/cyan]")) w in
  let w := log_output (Printed "[cyan]Available commands:[/cyan]") w in
  let w := log_output (Printed "[cyan]- 'quit' or 'exit': End conversation[/cyan]") w in
  let w := log_output (Printed "[cyan]- 'clear': Clear conversation history[/cyan]") w in
  log_output (Printed "--------------------------------------------------") w.

Section Session.

(** [str(v)] of the interpreter, used by [format_response] on a value that
    is not a [str]. *)
Variable py_str : json -> string.

(** The exception rich raises when asked to render [o], if any (a
    [MarkupError] on a text with a closing tag that closes nothing). *)
Variable render_error : console_out -> option exn.

(** [console.print(x)] for an [x] made at run time: nothing is printed when
    rendering raises. *)
Definition console_print (o : console_out) (w : world) : result world :=
  match render_error o with
  | Some e => Raise e
  | None => Ok (log_output o w)
  end.

(** Lines 122-136.  An exception leaves the function with the world as the
    function found it. *)
Definition format_response (response : json) (w : world) : result (string * world) :=
  match response with
  | JStr s =>
      if str_in "```" s || str_in "#" s || str_in "*" s then
        match console_print (PrintedMarkdown s) w with
        | Ok w' => Ok (s, w')
        | Raise e =>
            if is_Exception e then   (* except Exception as e: *)
              match console_print
                      (Printed ("[red]Warning: Error formatting response: "
                                +:+ exn_str e +:+ "[/red]")) w with
              | Ok w' => Ok (s, w')
              | Raise e' => Raise e'
              end
            else Raise e
        end
      else Ok (s, w)
  | v => Ok (py_str v, w)
  end.

(** The handlers of the [try] in the loop body (lines 188-192).  An
    exception raised by the print of line 192 is raised inside the handler:
    it leaves [main]. *)
Definition main_except (e : exn) (w : world) : ctl * world :=
  match exn_class_of e with
  | KeyboardInterrupt =>
      (Break, log_output (Printed (nl +:+ "[bold cyan]Goodbye![/bold cyan]")) w)
  | RequestException | OtherException =>
      match console_print
              (Printed (nl +:+ "[red]An unexpected error occurred: "
                        +:+ exn_str e +:+ "[/red]")) w with
      | Ok w' => (LoopOn, w')
      | Raise e' => (Escapes e', w)
      end
  | OtherBaseException => (Escapes e, w)
  end.

(** Lines 152-192: one iteration of [while True:]. *)
Definition main_iteration (net : network) (ev : stdin_event) (w : world)
  : ctl * world :=
  let w := log_output (Printed (nl +:+ "[bold green]You:[/bold green] ")) w in
  match ev with
  | InputRaises e => main_except e w
  | Line raw =>
      let user_input := strip raw in
      if String.eqb user_input "" then (LoopOn, w)
      else if String.eqb (lower user_input) "quit" || String.eqb (lower user_input) "exit" then
        (Break, log_output (Printed (nl +:+ "[bold cyan]Goodbye![/bold cyan]")) w)
      else if String.eqb (lower user_input) "clear" then
        let w := Conversation.clear w in
        (LoopOn, log_output (Printed "[cyan]Conversation history cleared.[/cyan]") w)
      else if len user_input >? MAX_TOKENS then
        (LoopOn, log_output
                   (Printed "[red]Input too long. Please reduce the length of your message.[/red]") w)
      else
        let w := log_output (Printed (nl +:+ "[bold blue]Chatbot:[/bold blue]")) w in
        match get_response net user_input w with
        | (Propagates e, w) => main_except e w
        | (Returns o, w) =>
            let response := returned o in
            if truthy response then
              match format_response response w with
              | Raise e => main_except e w
              | Ok (formatted_response, w) =>
                  if negb (String.eqb formatted_response "") then
                    match console_print (Printed formatted_response) w with
                    | Ok w' => (LoopOn, w')
                    | Raise e => main_except e w
                    end
                  else
                    (LoopOn, log_output
                               (Printed "[red]Error: Empty response after formatting[/red]") w)
              end
            else
              (LoopOn, log_output (Printed "[red]Error: Empty response from model[/red]") w)
        end
  end.

(** [while True:] over the input events still to come. *)
Fixpoint main_loop (net : network) (inputs : list stdin_event) (w : world)
  : ctl * world :=
  match inputs with
  | [] => (LoopOn, w)
  | ev :: rest =>
      match main_iteration net ev w with
      | (LoopOn, w') => main_loop net rest w'
      | stop => stop
      end
  end.

Definition main (net : network) (inputs : list stdin_event) (w : world)
  : ctl * world :=
  let w := print_welcome_message w in
  let w := Conversation.init w in
  main_loop net inputs w.

End Session.

(** ** Notions used in the statements *)

(** ** Sequences of store operations *)

Inductive store_op :=
| Append (role : string) (content : json)
| Clear.

Definition apply_op (op : store_op) (w : world) : world :=
  match op with
  | Append r c => Conversation.add_message r c w
  | Clear => Conversation.clear w
  end.

Definition run_ops (ops : list store_op) (w : world) : world :=
  fold_left (fun w op => apply_op op w) ops w.

(** The same operations on a plain sequence of Turns. *)
Definition replay_op (h : list msg) (op : store_op) : list msg :=
  match op with
  | Append r c => h ++ [Msg r c]
  | Clear => []
  end.

Definition replay (ops : list store_op) (h : list msg) : list msg :=
  fold_left replay_op ops h.

(** The Turns appended before the first [Clear]. *)
Fixpoint appended_before_clear (ops : list store_op) : list msg :=
  match ops with
  | Append r c :: rest => Msg r c :: appended_before_clear rest
  | _ => []
  end.

Definition payload_of (prompt : string) (w : world) : RequestPayload :=
  fst (create_message_content prompt w).

Definition raises_other {A} (r : result A) : Prop :=
  match r with
  | Ok _ => True
  | Raise e => exn_class_of e = OtherException
  end.

(** [w'] holds the same list objects, conversation and console as [w]. *)
Definition same_store (w w' : world) : Prop :=
  lists w' = lists w /\ conv_history w' = conv_history w /\ console w' = console w.

(** [w'] differs from [w] in the two Turns of a successful exchange. *)
Definition stored_exchange (prompt : string) (response_text : json) (w w' : world) : Prop :=
  lists w' = lists (Conversation.add_message "model" response_text
                      (Conversation.add_message "user" (JStr prompt) w))
  /\ conv_history w' = conv_history w /\ console w' = console w.

Definition store_effect (prompt : string) (c : completion) (w : world) : Prop :=
  match c with
  | Normal w' | Raised _ w' => same_store w w'
  | Return (Success response_text) w' => stored_exchange prompt response_text w w'
  | Return _ w' => same_store w w'
  end.

(** The Turns a call appends, read off what it returned. *)
Definition appended_turns (prompt : string) (r : response) : list msg :=
  match r with
  | Returns (Success response_text) =>
      [Msg "user" (JStr prompt); Msg "model" response_text]
  | _ => []
  end.

(** A series of calls of the handler, one per prompt, each in the world the
    previous one left. *)
Fixpoint exchanges (net : network) (prompts : list string) (w : world)
  : list response * world :=
  match prompts with
  | [] => ([], w)
  | prompt :: rest =>
      let (r, w1) := get_response net prompt w in
      let (rs, w2) := exchanges net rest w1 in
      (r :: rs, w2)
  end.

Definition succeeded (r : response) : bool :=
  match r with
  | Returns (Success _) => true
  | _ => false
  end.

(** [status_code] of a reply that is a response. *)
Definition status_of (r : reply) : option Z :=
  match r with
  | Response status_code _ _ => Some status_code
  | PostRaises _ => None
  end.

(** The replies on which the loop goes on to the next attempt while attempts
    remain: a 429, and a [RequestException] raised by [requests.post] or by
    [response.json()] on a 200. *)
Definition retried (r : reply) : bool :=
  match r with
  | PostRaises e => is_RequestException e
  | Response status_code json_body _ =>
      if status_code =? 200 then
        match json_body with
        | Raise e => is_RequestException e
        | Ok _ => false
        end
      else if status_code =? 404 then false
      else status_code =? 429
  end.

(** The body of a 200 response carries a block reason that Python holds
    true: [promptFeedback] is an object whose [blockReason] is a non-empty
    string (or another true value). *)
Definition safety_blocked (response_data : json) : Prop :=
  exists o feedback reason,
    response_data = JObj o /\
    assoc "promptFeedback" o = Some (JObj feedback) /\
    assoc "blockReason" feedback = Some reason /\
    truthy reason = true.

(** [w] with [n] more calls and the sleeps [s] added. *)
Definition after_calls (n : nat) (s : list Z) (w : world) : world :=
  World (lists w) (conv_history w) (n + calls w)%nat (sleeps w ++ s) (console w).

(** What a 200 response whose body parsed leads to (lines 84-96), in the
    world [w1] in which the call has been counted. *)
Definition on_parsed (prompt : string) (response_data : json) (w1 : world)
  : completion :=
  match interpret response_data with
  | Raise e => Raised e w1
  | Ok Blocked => Return SafetyBlocked w1
  | Ok (Reply response_text) =>
      Return (Success response_text)
             (Conversation.add_message "model" response_text
                (Conversation.add_message "user" (JStr prompt) w1))
  | Ok NoReply => Return Empty w1
  end.

(** ** Sample replies *)

(** A body whose first candidate's first part holds [response_text]. *)
Definition body_with_text (response_text : json) : json :=
  JObj [("candidates",
         JArr [JObj [("content",
                      JObj [("parts", JArr [JObj [("text", response_text)]]);
                            ("role", JStr "model")])]])].

(** A body that reports a safety block. *)
Definition body_blocked : json :=
  JObj [("promptFeedback", JObj [("blockReason", JStr "SAFETY")])].

(** A body whose only candidate has no [content]. *)
Definition body_without_content : json :=
  JObj [("candidates", JArr [JObj [("finishReason", JStr "SAFETY")]])].

Definition ok_200 (response_data : json) : reply :=
  Response 200 (Ok response_data) "".

Definition too_many_requests : reply :=
  Response 429 (Raise (Exn OtherException "Expecting value")) "".

Definition not_found : reply :=
  Response 404 (Raise (Exn OtherException "Expecting value")) "".

(** The network that gives the replies of [rs] in turn, then [otherwise]. *)
Definition script (rs : list reply) (otherwise : reply) : network :=
  fun n _ => nth n rs otherwise.

(** The line made of [n] times the character [c]. *)
Fixpoint repeat_char (c : ascii) (n : nat) : string :=
  match n with
  | O => EmptyString
  | S n' => String c (repeat_char c n')
  end.

(** What the session loop prints when it rejects a line. *)
Definition prompt_banner : console_out :=
  Printed (nl +:+ "[bold green]You:[/bold green] ").
Definition too_long_message : console_out :=
  Printed "[red]Input too long. Please reduce the length of your message.[/red]".

(** ** Notions used in the further properties *)

(** The exception a reply amounts to inside the inner [try]: the one
    [requests.post] raised, or the one [response.json()] raised on a 200. *)
Definition raised_by (r : reply) : option exn :=
  match r with
  | PostRaises e => Some e
  | Response status_code (Raise e) _ => if status_code =? 200 then Some e else None
  | Response _ (Ok _) _ => None
  end.

(** The body object carries no block: [promptFeedback] is missing, or is an
    object whose [blockReason] is missing or false for Python. *)
Definition not_blocked (o : list (string * json)) : Prop :=
  assoc "promptFeedback" o = None
  \/ exists feedback,
       assoc "promptFeedback" o = Some (JObj feedback) /\
       truthy (match assoc "blockReason" feedback with
               | Some reason => reason
               | None => JNull
               end) = false.

(** [response_text] is [candidates[0].content.parts[0].text] of the body
    object. *)
Definition first_text (o : list (string * json)) (response_text : json) : Prop :=
  exists candidate candidates content part parts,
    assoc "candidates" o = Some (JArr (JObj candidate :: candidates)) /\
    assoc "content" candidate = Some (JObj content) /\
    assoc "parts" content = Some (JArr (JObj part :: parts)) /\
    assoc "text" part = Some response_text.

(** The body object has nothing to reply with: [candidates] is missing or
    an empty list, or the first candidate's [content] is an object whose
    [parts] is missing or an empty list. *)
Definition no_text (o : list (string * json)) : Prop :=
  assoc "candidates" o = None \/ assoc "candidates" o = Some (JArr []) \/
  (exists candidate candidates content,
      assoc "candidates" o = Some (JArr (JObj candidate :: candidates)) /\
      assoc "content" candidate = Some (JObj content) /\
      (assoc "parts" content = None \/ assoc "parts" content = Some (JArr []))).

(** The entries a call adds to the context of the next request. *)
Definition appended_entries (prompt : string) (r : response) : list content_entry :=
  match r with
  | Returns (Success response_text) =>
      [Entry "user" [Part (JStr prompt)]; Entry "model" [Part response_text]]
  | _ => []
  end.

(** The stripped line is one of the commands of the session loop. *)
Definition is_quit (user_input : string) : bool :=
  String.eqb (lower user_input) "quit" || String.eqb (lower user_input) "exit".
Definition is_clear (user_input : string) : bool :=
  String.eqb (lower user_input) "clear".

(** The stripped line is sent to the handler as a prompt. *)
Definition is_prompt (user_input : string) : bool :=
  negb (String.eqb user_input "") && negb (is_quit user_input)
  && negb (is_clear user_input) && negb (len user_input >? MAX_TOKENS).

(** [s] holds one of the three markers [format_response] looks for. *)
Definition has_markdown (s : string) : bool :=
  str_in "```" s || str_in "#" s || str_in "*" s.

Definition goodbye : console_out :=
  Printed (nl +:+ "[bold cyan]Goodbye![/bold cyan]").
Definition chatbot_banner : console_out :=
  Printed (nl +:+ "[bold blue]Chatbot:[/bold blue]").
Definition cleared_message : console_out :=
  Printed "[cyan]Conversation history cleared.[/cyan]".
Definition empty_response_message : console_out :=
  Printed "[red]Error: Empty response from model[/red]".

(** A reply with a status the handler has no case for. *)
Definition server_error : reply :=
  Response 500 (Raise (Exn OtherException "Expecting value")) "Internal error".

(** A connection that could not be made. *)
Definition connection_error : reply :=
  PostRaises (Exn RequestException "Connection refused").

(** Every character of the line is one [str.strip()] removes. *)
Fixpoint all_space (s : string) : bool :=
  match s with
  | EmptyString => true
  | String c s' => is_space c && all_space s'
  end.

(** [EOFError], which [input()] raises at the end of the input. *)
Definition EOFError : exn := Exn OtherException "EOF when reading a line".

(** The input event is the [clear] command. *)
Definition is_clear_event (ev : stdin_event) : bool :=
  match ev with
  | Line raw => is_clear (strip raw)
  | InputRaises _ => false
  end.

(** A body whose first candidate's first part has no [text]. *)
Definition body_with_function_call : json :=
  JObj [("candidates",
         JArr [JObj [("content",
                      JObj [("parts",
                             JArr [JObj [("functionCall", JObj [("name", JStr "f")])]])])]])].

(** [response.json()] raised a [RequestException]. *)
Definition json_raises_RequestException (json_body : result json) : bool :=
  match json_body with
  | Raise e => is_RequestException e
  | Ok _ => false
  end.

(** A 200 whose body is not JSON, with the exception recent versions of
    requests raise on it. *)
Definition not_json : reply :=
  Response 200 (Raise (Exn RequestException "Expecting value")) "<html></html>".

(** What line 192 prints for the exception [e]. *)
Definition error_report (e : exn) : console_out :=
  Printed (nl +:+ "[red]An unexpected error occurred: " +:+ exn_str e +:+ "[/red]").

(** A rich that renders everything, and one that rejects the texts
    holding the tag that closes nothing. *)
Definition renders_all : console_out -> option exn := fun _ => None.
Definition rejects_stray_tags (o : console_out) : option exn :=
  match o with
  | Printed s =>
      if str_in "[/]" s
      then Some (Exn OtherException "closing tag '[/]' has nothing to close")
      else None
  | PrintedMarkdown _ => None
  end.

(** [w'] differs from [w] at most in what has reached the console. *)
Definition console_only (w w' : world) : Prop :=
  lists w' = lists w /\ conv_history w' = conv_history w
  /\ calls w' = calls w /\ sleeps w' = sleeps w.

(** * Properties *)

(** ** The store of list objects *)

Lemma deref_count_call w l : deref (count_call w) l = deref w l.
Proof. reflexivity. Qed.

Lemma deref_sleep secs w l : deref (sleep secs w) l = deref w l.
Proof. reflexivity. Qed.

Lemma deref_log_output o w l : deref (log_output o w) l = deref w l.
Proof. reflexivity. Qed.

Lemma wf_lookup w : wf w -> lists w !! conv_history w = Some (history w).
Proof.
  unfold wf, history, deref, Conversation.get_messages. intros Hlt.
  destruct (lookup_lt_is_Some_2 (lists w) (conv_history w) Hlt) as [h Hh].
  rewrite Hh. reflexivity.
Qed.

Lemma deref_add_message_same r c w :
  wf w ->
  deref (Conversation.add_message r c w) (conv_history w)
  = deref w (conv_history w) ++ [Msg r c].
Proof.
  intros Hwf. unfold deref, Conversation.add_message. simpl.
  rewrite list_lookup_alter. destruct (decide _) as [_|Hne]; [|congruence].
  rewrite (wf_lookup w Hwf). reflexivity.
Qed.

Lemma deref_add_message_other r c w l :
  l <> conv_history w ->
  deref (Conversation.add_message r c w) l = deref w l.
Proof.
  intros Hne. unfold deref, Conversation.add_message. simpl.
  rewrite list_lookup_alter. destruct (decide _) as [Heq|_]; [congruence|].
  reflexivity.
Qed.

Lemma history_add_message r c w :
  wf w -> history (Conversation.add_message r c w) = history w ++ [Msg r c].
Proof. intros Hwf. apply (deref_add_message_same r c w Hwf). Qed.

Lemma wf_add_message r c w : wf w -> wf (Conversation.add_message r c w).
Proof.
  unfold wf, Conversation.add_message. simpl. rewrite length_alter. auto.
Qed.

Lemma wf_clear w : wf (Conversation.clear w).
Proof.
  unfold wf, Conversation.clear. simpl. rewrite length_app. simpl. lia.
Qed.

Lemma wf_init w : wf (Conversation.init w).
Proof. apply wf_clear. Qed.

Lemma history_clear w : history (Conversation.clear w) = [].
Proof.
  unfold history, deref, Conversation.get_messages, Conversation.clear. simpl.
  rewrite list_lookup_middle; reflexivity.
Qed.

Lemma history_init w : history (Conversation.init w) = [].
Proof. apply history_clear. Qed.

Lemma deref_clear_old w l :
  (l < length (lists w))%nat -> deref (Conversation.clear w) l = deref w l.
Proof.
  intros Hlt. unfold deref, Conversation.clear. simpl.
  rewrite lookup_app_l by exact Hlt. reflexivity.
Qed.

Create HintDb store.
#[local] Hint Resolve wf_add_message wf_clear wf_init : store.

Lemma wf_apply_op op w : wf w -> wf (apply_op op w).
Proof. destruct op; simpl; auto with store. Qed.

Lemma history_apply_op op w :
  wf w -> history (apply_op op w) = replay_op (history w) op.
Proof.
  destruct op as [r c|]; simpl; intros Hwf.
  - apply history_add_message, Hwf.
  - apply history_clear.
Qed.

(** The conversation behaves as the sequence of its Turns. *)
Lemma history_run_ops ops : forall w,
  wf w -> history (run_ops ops w) = replay ops (history w).
Proof.
  induction ops as [|op ops IH]; intros w Hwf; [reflexivity|].
  simpl. rewrite IH by (apply wf_apply_op, Hwf).
  rewrite history_apply_op by exact Hwf. reflexivity.
Qed.

(** A list object the conversation no longer refers to is never written. *)
Lemma deref_detached ops : forall w l,
  (l < conv_history w)%nat -> (conv_history w < length (lists w))%nat ->
  deref (run_ops ops w) l = deref w l.
Proof.
  induction ops as [|op ops IH]; intros w l Hlt Hwf; [reflexivity|].
  simpl. rewrite IH.
  - destruct op as [r c|]; simpl.
    + apply deref_add_message_other. lia.
    + apply deref_clear_old. lia.
  - destruct op; simpl; [exact Hlt|lia].
  - apply (wf_apply_op op w Hwf).
Qed.

Lemma deref_snapshot ops : forall w,
  wf w ->
  deref (run_ops ops w) (Conversation.get_messages w)
  = deref w (Conversation.get_messages w) ++ appended_before_clear ops.
Proof.
  unfold Conversation.get_messages.
  induction ops as [|op ops IH]; intros w Hwf.
  - simpl. rewrite app_nil_r. reflexivity.
  - destruct op as [r c|]; simpl.
    + change (conv_history w) with (conv_history (Conversation.add_message r c w)) at 1.
      rewrite IH by (apply wf_add_message, Hwf). simpl.
      rewrite deref_add_message_same by exact Hwf.
      rewrite <- app_assoc. reflexivity.
    + rewrite app_nil_r. rewrite deref_detached.
      * apply deref_clear_old, Hwf.
      * simpl. exact Hwf.
      * apply wf_clear.
Qed.

(** ** The request builder *)

Lemma fold_left_snoc {A B} (f : A -> B) (l : list A) : forall acc,
  fold_left (fun acc x => acc ++ [f x]) l acc = acc ++ map f l.
Proof.
  induction l as [|x l IH]; intros acc; simpl.
  - rewrite app_nil_r. reflexivity.
  - rewrite IH, <- app_assoc. reflexivity.
Qed.

Lemma create_message_content_eq t w :
  create_message_content t w
  = (Payload (map entry_of (history w) ++ [Entry "user" [Part (JStr t)]]), w).
Proof.
  unfold create_message_content.
  rewrite (fold_left_snoc entry_of). reflexivity.
Qed.

(** C1: for every history [h] held by the store and every new user text
    [t], the payload built by [create_message_content] is the image of [h],
    Turn by Turn in the same order (oldest first), each as
    [{role, parts: [{text}]}], followed by exactly one entry with role
    ["user"] holding [t]; so it has [len(h) + 1] entries, the first [len(h)]
    of which are the image of [h]; and the build leaves the store, and the
    rest of the world, as it found them. *)
Theorem create_message_content_spec (t : string) (w : world) :
  let h := history w in
  let p := fst (create_message_content t w) in
  let w' := snd (create_message_content t w) in
  contents p = map (fun m => Entry (role m) [Part (text m)]) h
               ++ [Entry "user" [Part (JStr t)]]
  /\ length (contents p) = S (length h)
  /\ take (length h) (contents p) = map (fun m => Entry (role m) [Part (text m)]) h
  /\ contents p !! length h = Some (Entry "user" [Part (JStr t)])
  /\ w' = w.
Proof.
  intros h p w'. subst p w'. rewrite create_message_content_eq. simpl.
  fold h. change (fun m => Entry (role m) [Part (text m)]) with entry_of.
  repeat split.
  - rewrite length_app, length_map. simpl. lia.
  - rewrite take_app_length'; [reflexivity|]. rewrite length_map. reflexivity.
  - rewrite <- (length_map entry_of h) at 1.
    rewrite list_lookup_middle; reflexivity.
Qed.

(** ** What the interpreter raises *)

Lemma raises_other_bind {A B} (r : result A) (k : A -> result B) :
  raises_other r -> (forall a, raises_other (k a)) -> raises_other (bind r k).
Proof. destruct r as [a|e]; simpl; auto. Qed.

Lemma raises_other_Ok {A} (a : A) : raises_other (Ok a).
Proof. exact I. Qed.

Lemma raises_other_py_in k v : raises_other (py_in k v).
Proof. destruct v; simpl; auto. Qed.

Lemma raises_other_py_getitem v k : raises_other (py_getitem v k).
Proof. destruct v; simpl; auto. destruct (assoc k o); simpl; auto. Qed.

Lemma raises_other_py_getitem0 v : raises_other (py_getitem0 v).
Proof. destruct v as [| | | |s|l|o]; simpl; auto; [destruct s|destruct l]; simpl; auto. Qed.

Lemma raises_other_py_len v : raises_other (py_len v).
Proof. destruct v; simpl; auto. Qed.

Lemma raises_other_py_get v k : raises_other (py_get v k).
Proof. destruct v; simpl; auto. Qed.

Create HintDb interp.
#[local] Hint Resolve raises_other_Ok raises_other_py_in raises_other_py_getitem
  raises_other_py_getitem0 raises_other_py_len raises_other_py_get : interp.

Ltac raises_other_tac :=
  repeat first
    [ apply raises_other_bind; [solve [auto with interp]| intros ?]
    | match goal with |- raises_other (if ?b then _ else _) => destruct b end
    | apply raises_other_bind; [| intros ?]
    | solve [auto with interp] ].

(** Reading the body of a response raises nothing the inner handler
    catches. *)
Lemma interpret_raises_other response_data e :
  interpret response_data = Raise e -> exn_class_of e = OtherException.
Proof.
  intros H. assert (Hr : raises_other (interpret response_data)).
  { unfold interpret. raises_other_tac. }
  rewrite H in Hr. exact Hr.
Qed.

Lemma on_exception_other attempt e w :
  exn_class_of e = OtherException -> on_exception attempt e w = Raised e w.
Proof. intros H. unfold on_exception, is_RequestException. rewrite H. reflexivity. Qed.

(** ** What a call does to the store *)

Lemma same_store_refl w : same_store w w.
Proof. repeat split. Qed.

Lemma same_store_count_call w : same_store w (count_call w).
Proof. repeat split. Qed.

Lemma same_store_sleep secs w : same_store w (sleep secs (count_call w)).
Proof. repeat split. Qed.

Lemma store_effect_same_store prompt c w0 w :
  same_store w0 w -> store_effect prompt c w -> store_effect prompt c w0.
Proof.
  intros (Hl & Hc & Ho).
  unfold store_effect, same_store, stored_exchange, Conversation.add_message.
  destruct c as [w'|o w'|e w']; [|destruct o|]; simpl;
    rewrite ?Hl, ?Hc, ?Ho; auto.
Qed.

Lemma on_exception_store prompt attempt e w :
  store_effect prompt (on_exception attempt e (count_call w)) w.
Proof.
  unfold on_exception.
  destruct (is_RequestException e); [destruct (attempt <? MAX_RETRIES - 1)|];
    simpl; repeat split.
Qed.

Lemma attempt_body_store net prompt data attempt w :
  store_effect prompt (attempt_body net prompt data attempt w) w.
Proof.
  unfold attempt_body.
  destruct (net (calls w) data) as [status_code json_body body_text|e];
    [|apply on_exception_store].
  destruct (status_code =? 200).
  - destruct json_body as [response_data|e]; [|apply on_exception_store].
    destruct (interpret response_data) as [[|response_text|]|e];
      [| | |apply on_exception_store]; simpl; repeat split.
  - destruct (status_code =? 404); [simpl; repeat split|].
    destruct (status_code =? 429); [|simpl; repeat split].
    destruct (attempt <? MAX_RETRIES - 1); simpl; repeat split.
Qed.

Lemma retry_loop_store net prompt data attempts : forall w,
  store_effect prompt (retry_loop net prompt data attempts w) w.
Proof.
  induction attempts as [|attempt rest IH]; intros w; simpl.
  - apply same_store_refl.
  - pose proof (attempt_body_store net prompt data attempt w) as Hb.
    destruct (attempt_body net prompt data attempt w) as [w'|o w'|e w']; auto.
    apply (store_effect_same_store _ _ _ w'); [exact Hb|apply IH].
Qed.

Lemma on_Exception_not_Success e response_text :
  on_Exception e <> Returns (Success response_text).
Proof.
  unfold on_Exception. destruct (is_Exception e); [|discriminate].
  destruct (str_in "API key" (exn_str e)); discriminate.
Qed.

Lemma get_response_store net prompt w :
  let r := fst (get_response net prompt w) in
  let w' := snd (get_response net prompt w) in
  conv_history w' = conv_history w /\ console w' = console w /\
  lists w' = match r with
             | Returns (Success response_text) =>
                 lists (Conversation.add_message "model" response_text
                          (Conversation.add_message "user" (JStr prompt) w))
             | _ => lists w
             end.
Proof.
  unfold get_response. rewrite create_message_content_eq.
  pose proof (retry_loop_store net prompt
                (Payload (map entry_of (history w) ++ [Entry "user" [Part (JStr prompt)]]))
                (range MAX_RETRIES) w) as Hs.
  destruct (retry_loop _ _ _ _ _) as [w'|o w'|e w']; simpl in *.
  - destruct Hs as (? & ? & ?). auto.
  - destruct o; destruct Hs as (? & ? & ?); auto.
  - destruct Hs as (? & ? & ?). repeat split; auto.
    pose proof (on_Exception_not_Success e) as Hn.
    destruct (on_Exception e) as [[]|]; auto. exfalso. eapply Hn. reflexivity.
Qed.

Lemma get_response_wf net prompt w :
  wf w -> wf (snd (get_response net prompt w)).
Proof.
  destruct (get_response_store net prompt w) as (Hc & _ & Hl).
  unfold wf. rewrite Hc, Hl. intros Hwf.
  destruct (fst (get_response net prompt w)) as [[]|]; auto.
  unfold Conversation.add_message. simpl. rewrite !length_alter. exact Hwf.
Qed.

Lemma get_response_history net prompt w :
  wf w ->
  history (snd (get_response net prompt w))
  = history w ++ appended_turns prompt (fst (get_response net prompt w)).
Proof.
  intros Hwf. destruct (get_response_store net prompt w) as (Hc & _ & Hl).
  unfold history, deref, Conversation.get_messages. rewrite Hc, Hl.
  assert (Hsame : default [] (lists w !! conv_history w) = history w) by reflexivity.
  destruct (fst (get_response net prompt w)) as [[]|]; simpl appended_turns;
    rewrite ?app_nil_r; auto.
  pose proof (history_add_message "model" response_text
                (Conversation.add_message "user" (JStr prompt) w)
                (wf_add_message _ _ _ Hwf)) as H2.
  rewrite (history_add_message "user" (JStr prompt) w Hwf) in H2.
  unfold history at 1, deref, Conversation.get_messages in H2. simpl in H2.
  simpl. rewrite H2. rewrite <- app_assoc. reflexivity.
Qed.

Lemma exchanges_length net prompts : forall w,
  length (fst (exchanges net prompts w)) = length prompts.
Proof.
  induction prompts as [|p rest IH]; intros w; simpl; [reflexivity|].
  destruct (get_response net p w) as [r w1]. specialize (IH w1).
  destruct (exchanges net rest w1) as [rs w2]. simpl in *. congruence.
Qed.

Lemma exchanges_history net prompts : forall w,
  wf w ->
  history (snd (exchanges net prompts w))
  = history w ++ concat (zip_with appended_turns prompts (fst (exchanges net prompts w))).
Proof.
  induction prompts as [|p rest IH]; intros w Hwf; simpl.
  - rewrite app_nil_r. reflexivity.
  - pose proof (get_response_history net p w Hwf) as Hh.
    pose proof (get_response_wf net p w Hwf) as Hwf1.
    destruct (get_response net p w) as [r w1]. simpl in Hh, Hwf1.
    specialize (IH w1 Hwf1).
    destruct (exchanges net rest w1) as [rs w2]. simpl in *.
    rewrite IH, Hh, <- app_assoc. reflexivity.
Qed.

Lemma successes_turns prompts : forall rs,
  length rs = length prompts ->
  forallb succeeded rs = true ->
  map role (concat (zip_with appended_turns prompts rs))
  = concat (replicate (length prompts) ["user"; "model"]).
Proof.
  induction prompts as [|p rest IH]; intros [|r rs] Hlen Hall; simpl in *;
    try discriminate; [reflexivity|].
  apply andb_prop in Hall as [Hr Hall].
  destruct r as [[]|]; try discriminate. simpl.
  rewrite IH by (auto; lia). reflexivity.
Qed.

Lemma length_pairs {A} (a b : A) n :
  length (concat (replicate n [a; b])) = (2 * n)%nat.
Proof. induction n as [|n IH]; simpl; [reflexivity|]. rewrite IH. lia. Qed.

(** C2: the history of a new conversation is empty; a call of the handler
    appends exactly two Turns, a user Turn with the prompt and then a model
    Turn with the reply text, when it leaves through the Success return, and
    leaves the history as it was on every other outcome; so after [N] calls
    that all succeeded, made on a new conversation, the history has [2N]
    Turns whose roles are user, model, user, model, ... in call order. *)
Theorem history_grows_by_exchanges
        (net : network) (w0 w : world) (prompt : string) (prompts : list string) :
  wf w ->
  forallb succeeded (fst (exchanges net prompts (Conversation.init w0))) = true ->
  history (Conversation.init w0) = []
  /\ (let (r, w') := get_response net prompt w in
      history w' = history w ++
        match r with
        | Returns (Success response_text) =>
            [Msg "user" (JStr prompt); Msg "model" response_text]
        | _ => []
        end)
  /\ (let w' := snd (exchanges net prompts (Conversation.init w0)) in
      length (history w') = (2 * length prompts)%nat
      /\ map role (history w')
         = concat (replicate (length prompts) ["user"; "model"])).
Proof.
  intros Hwf Hall. split; [apply history_init|]. split.
  - pose proof (get_response_history net prompt w Hwf) as Hh.
    destruct (get_response net prompt w) as [r w']. exact Hh.
  - simpl. rewrite exchanges_history by apply wf_init.
    rewrite history_init. simpl.
    assert (Hroles := successes_turns prompts _ (exchanges_length net prompts _) Hall).
    split; [|exact Hroles].
    rewrite <- (length_map role), Hroles. apply length_pairs.
Qed.

Lemma history_grows_by_exchanges_witness :
  let net := script [too_many_requests; ok_200 (body_with_text (JStr "Hi!"));
                     ok_200 (body_with_text (JStr "Fine."))] not_found in
  wf session_start
  /\ forallb succeeded
       (fst (exchanges net ["Hello"; "How are you?"] (Conversation.init empty_world))) = true
  /\ history (snd (get_response net "Hello" session_start))
     = [Msg "user" (JStr "Hello"); Msg "model" (JStr "Hi!")]
  /\ map role (history (snd (exchanges net ["Hello"; "How are you?"]
                                       (Conversation.init empty_world))))
     = ["user"; "model"; "user"; "model"].
Proof.
  intros net.
  assert (Hwf : wf session_start) by (unfold wf; simpl; lia).
  assert (Hall : forallb succeeded
            (fst (exchanges net ["Hello"; "How are you?"] (Conversation.init empty_world)))
          = true) by reflexivity.
  destruct (history_grows_by_exchanges net empty_world session_start "Hello"
              ["Hello"; "How are you?"] Hwf Hall) as (_ & Hcall & _ & Hroles).
  split; [exact Hwf|]. split; [exact Hall|]. split; [|exact Hroles].
  vm_compute in Hcall. exact Hcall.
Defined.

(** ** The retry loop *)

Lemma attempt_body_429 net prompt data attempt w :
  status_of (net (calls w) data) = Some 429 ->
  attempt_body net prompt data attempt w
  = if attempt <? MAX_RETRIES - 1
    then Normal (sleep (RATE_LIMIT_DELAY * (attempt + 1)) (count_call w))
    else Return RateLimited (count_call w).
Proof.
  unfold attempt_body. destruct (net (calls w) data); simpl; [|discriminate].
  intros [= ->]. reflexivity.
Qed.

Lemma attempt_body_404 net prompt data attempt w :
  status_of (net (calls w) data) = Some 404 ->
  attempt_body net prompt data attempt w = Return ModelNotFound (count_call w).
Proof.
  unfold attempt_body. destruct (net (calls w) data); simpl; [|discriminate].
  intros [= ->]. reflexivity.
Qed.

Lemma attempt_body_200 net prompt data attempt w response_data body_text :
  net (calls w) data = Response 200 (Ok response_data) body_text ->
  attempt_body net prompt data attempt w
  = on_parsed prompt response_data (count_call w).
Proof.
  unfold attempt_body, on_parsed. intros ->. simpl.
  destruct (interpret response_data) as [[]|e] eqn:Hi; try reflexivity.
  apply on_exception_other, (interpret_raises_other _ _ Hi).
Qed.

Lemma attempt_body_retried net prompt data attempt w :
  retried (net (calls w) data) = true ->
  (attempt <? MAX_RETRIES - 1) = true ->
  exists secs,
    attempt_body net prompt data attempt w = Normal (sleep secs (count_call w)).
Proof.
  unfold attempt_body, retried, on_exception. intros Hr Ha.
  destruct (net (calls w) data) as [status_code json_body body_text|e].
  - destruct (status_code =? 200).
    + destruct json_body as [|e]; [discriminate|]. rewrite Hr, Ha. eauto.
    + destruct (status_code =? 404); [discriminate|]. rewrite Hr, Ha. eauto.
  - rewrite Hr, Ha. eauto.
Qed.

Lemma after_calls_0 w : after_calls 0 [] w = w.
Proof.
  destruct w. unfold after_calls. simpl. rewrite app_nil_r. reflexivity.
Qed.

Lemma sleep_count_after_calls secs n s w :
  sleep secs (count_call (after_calls n s w)) = after_calls (S n) (s ++ [secs]) w.
Proof.
  unfold sleep, count_call, after_calls. simpl.
  rewrite <- app_assoc. reflexivity.
Qed.

Lemma count_after_calls n s w :
  count_call (after_calls n s w) = after_calls (S n) s w.
Proof. reflexivity. Qed.

(** The loop reaches attempt [k] when every earlier reply was one it goes
    on from. *)
Lemma retry_loop_reaches net prompt data w (k : nat) :
  (k < 3)%nat ->
  (forall j, (j < k)%nat -> retried (net (j + calls w)%nat data) = true) ->
  exists s,
    length s = k /\
    retry_loop net prompt data (range MAX_RETRIES) w
    = retry_loop net prompt data (drop k (range MAX_RETRIES)) (after_calls k s w).
Proof.
  intros Hk Hr.
  assert (Hstep : forall j s, (j < k)%nat -> exists secs,
             attempt_body net prompt data (Z.of_nat j) (after_calls j s w)
             = Normal (after_calls (S j) (s ++ [secs]) w)).
  { intros j s Hj.
    destruct (attempt_body_retried net prompt data (Z.of_nat j) (after_calls j s w))
      as [secs Hs].
    - simpl. apply Hr, Hj.
    - apply Z.ltb_lt. unfold MAX_RETRIES. lia.
    - exists secs. rewrite Hs. f_equal. apply sleep_count_after_calls. }
  destruct k as [|[|[|k]]]; [| | |lia].
  - exists []. rewrite after_calls_0. auto.
  - destruct (Hstep 0%nat [] ltac:(lia)) as [s0 H0].
    exists [s0]. split; [reflexivity|].
    rewrite after_calls_0 in H0.
    change (range MAX_RETRIES) with [Z.of_nat 0; Z.of_nat 1; Z.of_nat 2].
    cbn [retry_loop drop]. rewrite H0. reflexivity.
  - destruct (Hstep 0%nat [] ltac:(lia)) as [s0 H0].
    destruct (Hstep 1%nat [s0] ltac:(lia)) as [s1 H1].
    exists [s0; s1]. split; [reflexivity|].
    rewrite after_calls_0 in H0.
    change (range MAX_RETRIES) with [Z.of_nat 0; Z.of_nat 1; Z.of_nat 2].
    cbn [app] in H0, H1. cbn [retry_loop drop]. rewrite H0.
    cbn [retry_loop]. rewrite H1. reflexivity.
Qed.

Lemma payload_of_eq prompt w :
  payload_of prompt w
  = Payload (map entry_of (history w) ++ [Entry "user" [Part (JStr prompt)]]).
Proof. unfold payload_of. rewrite create_message_content_eq. reflexivity. Qed.

Lemma get_response_eq net prompt w :
  get_response net prompt w
  = match retry_loop net prompt (payload_of prompt w) (range MAX_RETRIES) w with
    | Return o w' => (Returns o, w')
    | Raised e w' => (on_Exception e, w')
    | Normal w' => (Returns Unexpected, w')
    end.
Proof.
  unfold get_response. rewrite payload_of_eq, create_message_content_eq. reflexivity.
Qed.

Lemma drop_range (k : nat) :
  (k < 3)%nat ->
  drop k (range MAX_RETRIES) = Z.of_nat k :: drop (S k) (range MAX_RETRIES).
Proof. intros Hk. destruct k as [|[|[|k]]]; [reflexivity..|lia]. Qed.

(** A 200 response whose body parsed ends the call, on whichever attempt
    it arrives. *)
Lemma get_response_parsed net prompt w (k : nat) response_data body_text :
  (k < 3)%nat ->
  (forall j, (j < k)%nat -> retried (net (j + calls w)%nat (payload_of prompt w)) = true) ->
  net (k + calls w)%nat (payload_of prompt w) = Response 200 (Ok response_data) body_text ->
  exists s,
    length s = k /\
    get_response net prompt w
    = match on_parsed prompt response_data (after_calls (S k) s w) with
      | Return o w' => (Returns o, w')
      | Raised e w' => (on_Exception e, w')
      | Normal w' => (Returns Unexpected, w')
      end.
Proof.
  intros Hk Hr H200.
  destruct (retry_loop_reaches net prompt (payload_of prompt w) w k Hk Hr)
    as (s & Hlen & Hloop).
  exists s. split; [exact Hlen|].
  rewrite get_response_eq, Hloop, (drop_range k Hk). cbn [retry_loop].
  rewrite (attempt_body_200 _ _ _ _ _ response_data body_text) by exact H200.
  rewrite count_after_calls.
  unfold on_parsed. destruct (interpret response_data) as [[]|e]; reflexivity.
Qed.

Lemma interpret_blocked response_data :
  safety_blocked response_data -> interpret response_data = Ok Blocked.
Proof.
  intros (o & feedback & reason & -> & Hf & Hr & Ht).
  unfold interpret. simpl. rewrite Hf. simpl. rewrite Hr. simpl. rewrite Ht.
  reflexivity.
Qed.

(** C3, as stated, fails: a 200 received on the second attempt whose body
    is not JSON makes [response.json()] raise a [RequestException] (line
    82), which the inner handler retries (lines 107-110): the client sleeps
    a second time and makes a third call, and what the call returns is the
    outcome of the third response, not of the 200. *)
Lemma unparsed_200_is_retried :
  let net := script [too_many_requests; not_json; not_found] not_found in
  status_of (net 0%nat (payload_of "Hello" session_start)) = Some 429
  /\ status_of (net 1%nat (payload_of "Hello" session_start)) = Some 200
  /\ fst (get_response net "Hello" session_start) = Returns ModelNotFound
  /\ sleeps (snd (get_response net "Hello" session_start))
     = [RATE_LIMIT_DELAY * 1; RATE_LIMIT_DELAY]
  /\ calls (snd (get_response net "Hello" session_start)) = 3%nat.
Proof. repeat split. Qed.

(** C3, amended: in the retry loop with [MAX_RETRIES = 3], a 429 received
    at attempt index [i] makes the client sleep
    [RATE_LIMIT_DELAY * (i + 1)] seconds and go on to the next attempt when
    attempts remain, and return RateLimited when none remains; three 429
    responses in a row yield RateLimited after three calls and exactly two
    sleeps; a 429 followed on the second attempt by a 200 on which
    [response.json()] does not raise a [RequestException] yields what the
    200 alone would have yielded, after two calls and exactly one sleep of
    [RATE_LIMIT_DELAY * 1]. *)
Theorem rate_limit_backoff :
  (forall net prompt data attempt w,
      status_of (net (calls w) data) = Some 429 ->
      attempt_body net prompt data attempt w
      = if attempt <? MAX_RETRIES - 1
        then Normal (sleep (RATE_LIMIT_DELAY * (attempt + 1)) (count_call w))
        else Return RateLimited (count_call w))
  /\ (forall net prompt w,
         (forall k, (k < 3)%nat ->
                    status_of (net (k + calls w)%nat (payload_of prompt w)) = Some 429) ->
         get_response net prompt w
         = (Returns RateLimited,
            after_calls 3 [RATE_LIMIT_DELAY * 1; RATE_LIMIT_DELAY * 2] w))
  /\ (forall net prompt w json_body body_text,
         status_of (net (calls w) (payload_of prompt w)) = Some 429 ->
         net (S (calls w)) (payload_of prompt w)
         = Response 200 json_body body_text ->
         json_raises_RequestException json_body = false ->
         let (r, w') := get_response net prompt w in
         let (r0, w0) :=
           get_response (fun _ _ => Response 200 json_body body_text) prompt w in
         r = r0 /\ w' = after_calls 1 [RATE_LIMIT_DELAY * 1] w0).
Proof.
  split; [exact attempt_body_429|]. split.
  - intros net prompt w H.
    pose proof (H 0%nat ltac:(lia)) as H0.
    pose proof (H 1%nat ltac:(lia)) as H1.
    pose proof (H 2%nat ltac:(lia)) as H2.
    rewrite get_response_eq. change (range MAX_RETRIES) with [0; 1; 2].
    cbn [retry_loop].
    rewrite attempt_body_429 by exact H0.
    change (0 <? MAX_RETRIES - 1) with true. cbv iota. cbn [retry_loop].
    rewrite attempt_body_429 by exact H1.
    change (1 <? MAX_RETRIES - 1) with true. cbv iota. cbn [retry_loop].
    rewrite attempt_body_429 by exact H2.
    change (2 <? MAX_RETRIES - 1) with false. cbv iota.
    f_equal. unfold after_calls, sleep, count_call. cbn [lists conv_history calls sleeps console].
    rewrite <- app_assoc. reflexivity.
  - intros net prompt w json_body body_text H0 H1 Hnr.
    rewrite !get_response_eq. change (range MAX_RETRIES) with [0; 1; 2].
    cbn [retry_loop].
    rewrite attempt_body_429 by exact H0.
    change (0 <? MAX_RETRIES - 1) with true. cbv iota. cbn [retry_loop].
    destruct json_body as [response_data|e].
    + rewrite (attempt_body_200 net _ _ 1 _ response_data body_text) by exact H1.
      rewrite (attempt_body_200 (fun _ _ => Response 200 (Ok response_data) body_text)
                 _ _ 0 _ response_data body_text) by reflexivity.
      unfold on_parsed. destruct (interpret response_data) as [[]|e]; cbv iota;
        split; reflexivity.
    + simpl in Hnr. unfold attempt_body.
      change (calls (sleep (RATE_LIMIT_DELAY * (0 + 1)) (count_call w)))
        with (S (calls w)).
      rewrite H1. simpl. unfold on_exception. rewrite Hnr. split; reflexivity.
Qed.

Lemma rate_limit_backoff_witness :
  get_response (script [too_many_requests; too_many_requests; too_many_requests] not_found)
               "Hello" session_start
  = (Returns RateLimited,
     after_calls 3 [RATE_LIMIT_DELAY * 1; RATE_LIMIT_DELAY * 2] session_start)
  /\ (let (r, w') :=
        get_response (script [too_many_requests; ok_200 (body_with_text (JStr "Hi!"))] not_found)
                     "Hello" session_start in
      let (r0, w0) :=
        get_response (fun _ _ => Response 200 (Ok (body_with_text (JStr "Hi!"))) "")
                     "Hello" session_start in
      r = r0 /\ w' = after_calls 1 [RATE_LIMIT_DELAY * 1] w0)
  /\ attempt_body (script [too_many_requests] not_found) "Hello"
                  (payload_of "Hello" session_start) 1 session_start
     = (if 1 <? MAX_RETRIES - 1
        then Normal (sleep (RATE_LIMIT_DELAY * (1 + 1)) (count_call session_start))
        else Return RateLimited (count_call session_start)).
Proof.
  split.
  - apply (proj1 (proj2 rate_limit_backoff)).
    intros k Hk. destruct k as [|[|[|k]]]; [reflexivity..|lia].
  - split; [apply (proj2 (proj2 rate_limit_backoff)); reflexivity|].
    apply (proj1 rate_limit_backoff). reflexivity.
Defined.

(** C4: when the first attempt of a request receives HTTP status 404, the
    call returns ModelNotFound at once: one HTTP call has been made, nothing
    has slept, the store is as it was; and a 404 ends the loop in the same
    way at every attempt index, whatever attempts remain. *)
Theorem not_found_is_never_retried
        (net : network) (prompt : string) (w : world) :
  status_of (net (calls w) (payload_of prompt w)) = Some 404 ->
  get_response net prompt w = (Returns ModelNotFound, count_call w)
  /\ calls (snd (get_response net prompt w)) = S (calls w)
  /\ sleeps (snd (get_response net prompt w)) = sleeps w
  /\ history (snd (get_response net prompt w)) = history w
  /\ (forall attempt,
         attempt_body net prompt (payload_of prompt w) attempt w
         = Return ModelNotFound (count_call w)).
Proof.
  intros H404.
  assert (Hget : get_response net prompt w = (Returns ModelNotFound, count_call w)).
  { rewrite get_response_eq. change (range MAX_RETRIES) with [0; 1; 2].
    cbn [retry_loop]. rewrite attempt_body_404 by exact H404. reflexivity. }
  rewrite Hget. repeat split.
  intros attempt. apply attempt_body_404, H404.
Qed.

Lemma not_found_is_never_retried_witness :
  get_response (script [not_found] (ok_200 (body_with_text (JStr "Hi!"))))
               "Hello" session_start
  = (Returns ModelNotFound, count_call session_start).
Proof.
  apply (not_found_is_never_retried
           (script [not_found] (ok_200 (body_with_text (JStr "Hi!"))))
           "Hello" session_start).
  reflexivity.
Defined.

(** C5: a 200 response whose parsed body has [promptFeedback.blockReason]
    present and non-empty ends the call with SafetyBlocked, on whichever of
    the three attempts it arrives, and the conversation history is exactly
    what it was: no Turn is appended. *)
Theorem safety_block_appends_nothing
        (net : network) (prompt : string) (w : world) (k : nat)
        (response_data : json) (body_text : string) :
  (k < 3)%nat ->
  (forall j, (j < k)%nat ->
             retried (net (j + calls w)%nat (payload_of prompt w)) = true) ->
  net (k + calls w)%nat (payload_of prompt w)
  = Response 200 (Ok response_data) body_text ->
  safety_blocked response_data ->
  fst (get_response net prompt w) = Returns SafetyBlocked
  /\ history (snd (get_response net prompt w)) = history w
  /\ lists (snd (get_response net prompt w)) = lists w
  /\ length (history (snd (get_response net prompt w))) = length (history w)
  /\ calls (snd (get_response net prompt w)) = (S k + calls w)%nat.
Proof.
  intros Hk Hr H200 Hb.
  destruct (get_response_parsed net prompt w k response_data body_text Hk Hr H200)
    as (s & _ & ->).
  unfold on_parsed. rewrite (interpret_blocked _ Hb). repeat split.
Qed.

Lemma safety_block_appends_nothing_witness :
  let net := script [too_many_requests; ok_200 body_blocked] not_found in
  fst (get_response net "Hello" session_start) = Returns SafetyBlocked
  /\ history (snd (get_response net "Hello" session_start)) = history session_start
  /\ lists (snd (get_response net "Hello" session_start)) = lists session_start
  /\ length (history (snd (get_response net "Hello" session_start)))
     = length (history session_start)
  /\ calls (snd (get_response net "Hello" session_start)) = 2%nat.
Proof.
  intros net.
  apply (safety_block_appends_nothing net "Hello" session_start 1 body_blocked "").
  - lia.
  - intros j Hj. destruct j as [|j]; [reflexivity|lia].
  - reflexivity.
  - exists [("promptFeedback", JObj [("blockReason", JStr "SAFETY")])],
           [("blockReason", JStr "SAFETY")], (JStr "SAFETY").
    repeat split.
Defined.

(** What the handler does answer with Empty: a parsed body without a
    block, whose [candidates] is missing or an empty list, or whose first
    candidate has a [content] object whose [parts] is missing or an empty
    list. *)
Lemma interpret_no_reply o :
  assoc "promptFeedback" o = None ->
  assoc "candidates" o = None \/ assoc "candidates" o = Some (JArr []) \/
  (exists candidate rest content,
      assoc "candidates" o = Some (JArr (JObj candidate :: rest)) /\
      assoc "content" candidate = Some (JObj content) /\
      (assoc "parts" content = None \/ assoc "parts" content = Some (JArr []))) ->
  interpret (JObj o) = Ok NoReply.
Proof.
  intros Hf Hc. unfold interpret. simpl. rewrite Hf. simpl.
  destruct Hc as [Hc|[Hc|(candidate & rest & content & Hc & Hcontent & Hp)]];
    rewrite Hc; simpl; try reflexivity.
  rewrite Hcontent. simpl. destruct Hp as [Hp|Hp]; rewrite Hp; reflexivity.
Qed.

(** C6, at the input on which the code departs from it: a 200 response that
    is not blocked and whose first candidate has no [content] field does not
    yield Empty; the [KeyError] raised at line 90 reaches the outer handler,
    and the call returns the text [An error occurred: 'content'].  The
    history is left as it was. *)
Theorem candidate_without_content_is_an_error
        (net : network) (prompt : string) (w : world)
        (o candidate : list (string * json)) (rest : list json) (body_text : string) :
  net (calls w) (payload_of prompt w) = Response 200 (Ok (JObj o)) body_text ->
  assoc "promptFeedback" o = None ->
  assoc "candidates" o = Some (JArr (JObj candidate :: rest)) ->
  assoc "content" candidate = None ->
  get_response net prompt w = (Returns (OtherError "'content'"), count_call w)
  /\ returned (OtherError "'content'") = JStr "An error occurred: 'content'"
  /\ history (snd (get_response net prompt w)) = history w.
Proof.
  intros H200 Hf Hc Hcontent.
  assert (Hget : get_response net prompt w
                 = (Returns (OtherError "'content'"), count_call w)).
  { rewrite get_response_eq. change (range MAX_RETRIES) with [0; 1; 2].
    cbn [retry_loop].
    rewrite (attempt_body_200 _ _ _ _ _ (JObj o) body_text) by exact H200.
    unfold on_parsed, interpret. simpl. rewrite Hf. simpl. rewrite Hc. simpl.
    rewrite Hcontent. reflexivity. }
  rewrite Hget. repeat split.
Qed.

Lemma candidate_without_content_is_an_error_witness :
  get_response (script [ok_200 body_without_content] not_found) "Hello" session_start
  = (Returns (OtherError "'content'"), count_call session_start)
  /\ returned (OtherError "'content'") = JStr "An error occurred: 'content'"
  /\ history (snd (get_response (script [ok_200 body_without_content] not_found)
                                "Hello" session_start))
     = history session_start.
Proof.
  apply (candidate_without_content_is_an_error
           (script [ok_200 body_without_content] not_found) "Hello" session_start
           [("candidates", JArr [JObj [("finishReason", JStr "SAFETY")]])]
           [("finishReason", JStr "SAFETY")] [] ""); reflexivity.
Defined.

(** ** Snapshots and clearing *)

(** C7, as stated, fails: the list [get_messages] returned before an append
    holds, after it, the appended Turn as well. *)
Lemma snapshot_sees_later_append :
  let snapshot := Conversation.get_messages session_start in
  deref session_start snapshot = []
  /\ deref (Conversation.add_message "user" (JStr "Hello") session_start) snapshot
     = [Msg "user" (JStr "Hello")].
Proof. split; reflexivity. Qed.

(** C7, amended: [get_messages] returns the conversation's own list, not a
    copy.  After any series of appends and clears, a list returned earlier
    holds the Turns it held when it was returned followed by the Turns
    appended since, up to the first clear; [clear] binds the conversation to
    a new list, so it and everything after it leave the returned list as it
    is. *)
Theorem snapshot_is_the_live_list (w : world) (ops : list store_op) :
  wf w ->
  let snapshot := Conversation.get_messages w in
  deref (run_ops ops w) snapshot = deref w snapshot ++ appended_before_clear ops.
Proof. intros Hwf. apply deref_snapshot, Hwf. Qed.

Lemma snapshot_is_the_live_list_witness :
  let w := Conversation.add_message "user" (JStr "Hello") session_start in
  let snapshot := Conversation.get_messages w in
  deref (run_ops [Append "model" (JStr "Hi!"); Clear; Append "user" (JStr "Again")] w)
        snapshot
  = [Msg "user" (JStr "Hello"); Msg "model" (JStr "Hi!")].
Proof.
  intros w snapshot.
  apply (snapshot_is_the_live_list w
           [Append "model" (JStr "Hi!"); Clear; Append "user" (JStr "Again")]).
  unfold wf. simpl. lia.
Defined.

(** C9: whatever the conversation held, after [clear()] its history is the
    empty sequence, and so is the list [get_messages] then returns; a second
    [clear()] leaves the history as the first left it, and the conversation
    behaves the same from then on: every further series of appends and
    clears gives the same history after two clears as after one. *)
Theorem clear_resets_and_is_idempotent (w : world) (ops : list store_op) :
  history (Conversation.clear w) = []
  /\ deref (Conversation.clear w) (Conversation.get_messages (Conversation.clear w)) = []
  /\ history (Conversation.clear (Conversation.clear w)) = history (Conversation.clear w)
  /\ history (run_ops ops (Conversation.clear (Conversation.clear w)))
     = history (run_ops ops (Conversation.clear w)).
Proof.
  split; [apply history_clear|]. split; [apply history_clear|].
  split; [rewrite !history_clear; reflexivity|].
  rewrite !history_run_ops by apply wf_clear.
  rewrite !history_clear. reflexivity.
Qed.

(** ** The shape of an attempt *)

Lemma on_exception_shape attempt e w :
  match on_exception attempt e (count_call w) with
  | Normal w' =>
      (attempt <? MAX_RETRIES - 1) = true /\ w' = sleep RATE_LIMIT_DELAY (count_call w)
  | Return o w' => o = NetworkError (exn_str e) /\ w' = count_call w
  | Raised e' w' => e' = e /\ w' = count_call w
  end.
Proof.
  unfold on_exception. destruct (is_RequestException e); [|auto].
  destruct (attempt <? MAX_RETRIES - 1); auto.
Qed.

Lemma attempt_body_shape net prompt data attempt w :
  match attempt_body net prompt data attempt w with
  | Normal w' =>
      (attempt <? MAX_RETRIES - 1) = true /\
      exists secs,
        (secs = RATE_LIMIT_DELAY \/ secs = RATE_LIMIT_DELAY * (attempt + 1)) /\
        w' = sleep secs (count_call w)
  | Return o w' =>
      o <> Unexpected /\ calls w' = S (calls w) /\ sleeps w' = sleeps w
  | Raised e w' => w' = count_call w
  end.
Proof.
  assert (Hex : forall e,
    match on_exception attempt e (count_call w) with
    | Normal w' =>
        (attempt <? MAX_RETRIES - 1) = true /\
        exists secs,
          (secs = RATE_LIMIT_DELAY \/ secs = RATE_LIMIT_DELAY * (attempt + 1)) /\
          w' = sleep secs (count_call w)
    | Return o w' =>
        o <> Unexpected /\ calls w' = S (calls w) /\ sleeps w' = sleeps w
    | Raised e w' => w' = count_call w
    end).
  { intros e. pose proof (on_exception_shape attempt e w) as H.
    destruct (on_exception attempt e (count_call w)) as [w'|o w'|e' w'].
    - destruct H as [Ha ->]. split; [exact Ha|]. exists RATE_LIMIT_DELAY. auto.
    - destruct H as [-> ->]. repeat split. discriminate.
    - apply H. }
  unfold attempt_body.
  destruct (net (calls w) data) as [status_code json_body body_text|e]; [|apply Hex].
  destruct (status_code =? 200).
  - destruct json_body as [response_data|e]; [|apply Hex].
    destruct (interpret response_data) as [[|response_text|]|e]; [| | |apply Hex];
      repeat split; discriminate.
  - destruct (status_code =? 404); [repeat split; discriminate|].
    destruct (status_code =? 429); [|repeat split; discriminate].
    destruct (attempt <? MAX_RETRIES - 1) eqn:Ha; [|repeat split; discriminate].
    split; [reflexivity|]. exists (RATE_LIMIT_DELAY * (attempt + 1)). auto.
Qed.

(** ** Totality of the handler *)

Lemma bind_Ok_inv {A B} (r : result A) (k : A -> result B) b :
  bind r k = Ok b -> exists a, r = Ok a /\ k a = Ok b.
Proof. destruct r as [a|e]; simpl; [eauto|discriminate]. Qed.

Lemma py_getitem_Ok_inv v k x :
  py_getitem v k = Ok x -> exists o, v = JObj o /\ assoc k o = Some x.
Proof.
  destruct v; simpl; try discriminate.
  destruct (assoc k o) eqn:E; [|discriminate]. intros [= ->]. eauto.
Qed.

Lemma py_get_Ok_inv v k x :
  py_get v k = Ok x ->
  exists o, v = JObj o /\ x = match assoc k o with Some y => y | None => JNull end.
Proof. destruct v; simpl; try discriminate. intros [= <-]. eauto. Qed.

(** A body is read as a reply only when it is an object that carries no
    block and whose first candidate's first part has a [text]. *)
Lemma interpret_Reply_inv response_data response_text :
  interpret response_data = Ok (Reply response_text) ->
  exists o, response_data = JObj o /\ not_blocked o /\ first_text o response_text.
Proof.
  unfold interpret. intros H.
  apply bind_Ok_inv in H as (has_feedback & Hin & H).
  apply bind_Ok_inv in H as (blocked & Hb & H).
  destruct blocked; [discriminate|].
  apply bind_Ok_inv in H as (has_candidates & Hinc & H).
  apply bind_Ok_inv in H as (some_candidate & Hsc & H).
  destruct some_candidate; [|discriminate].
  apply bind_Ok_inv in H as (candidates & Hc & H).
  apply py_getitem_Ok_inv in Hc as (o & -> & Hc).
  exists o. split; [reflexivity|].
  apply bind_Ok_inv in H as (candidate & Hc0 & H).
  apply bind_Ok_inv in H as (content & Hcontent & H).
  apply py_getitem_Ok_inv in Hcontent as (cand & -> & Hcontent).
  apply bind_Ok_inv in H as (has_parts & Hinp & H).
  apply bind_Ok_inv in H as (some_part & Hsp & H).
  destruct some_part; [|discriminate].
  apply bind_Ok_inv in H as (parts & Hp & H).
  apply py_getitem_Ok_inv in Hp as (co & -> & Hp).
  apply bind_Ok_inv in H as (part & Hp0 & H).
  apply bind_Ok_inv in H as (t & Ht & H).
  apply py_getitem_Ok_inv in Ht as (po & -> & Ht).
  injection H as ->.
  split.
  - simpl in Hin. injection Hin as <-.
    destruct (assoc "promptFeedback" o) as [feedback|] eqn:Hf; [|left; exact Hf].
    right.
    apply bind_Ok_inv in Hb as (fb & Hfb & Hb).
    simpl in Hfb. rewrite Hf in Hfb. injection Hfb as <-.
    apply bind_Ok_inv in Hb as (reason & Hr & Hb).
    apply py_get_Ok_inv in Hr as (fo & -> & ->).
    exists fo. split; [exact Hf|]. congruence.
  - destruct candidates as [| | | |s|l|o']; simpl in Hc0; try discriminate.
    + destruct s; discriminate.
    + destruct l as [|x l]; [discriminate|]. injection Hc0 as ->.
      destruct parts as [| | | |s|l'|o']; simpl in Hp0; try discriminate.
      * destruct s; discriminate.
      * destruct l' as [|y l']; [discriminate|]. injection Hp0 as ->.
        exists cand, l, co, po, l'. auto.
Qed.

Lemma on_exception_not_Success attempt e w response_text w' :
  on_exception attempt e w <> Return (Success response_text) w'.
Proof.
  unfold on_exception. destruct (is_RequestException e); [|discriminate].
  destruct (attempt <? MAX_RETRIES - 1); discriminate.
Qed.

Lemma on_exception_Raised_inv attempt e w e' w' :
  on_exception attempt e w = Raised e' w' -> e' = e.
Proof.
  unfold on_exception. destruct (is_RequestException e).
  - destruct (attempt <? MAX_RETRIES - 1); discriminate.
  - intros [= <- _]. reflexivity.
Qed.

(** The Success return is reached only from a 200 response whose body was
    read as a reply. *)
Lemma attempt_body_Success_inv net prompt data attempt w response_text w' :
  attempt_body net prompt data attempt w = Return (Success response_text) w' ->
  exists response_data body_text,
    net (calls w) data = Response 200 (Ok response_data) body_text
    /\ interpret response_data = Ok (Reply response_text).
Proof.
  unfold attempt_body.
  destruct (net (calls w) data) as [status_code json_body body_text|e].
  - destruct (Z.eqb_spec status_code 200) as [->|_].
    + destruct json_body as [response_data|e].
      * destruct (interpret response_data) as [[|t|]|e] eqn:Hi; try discriminate.
        -- intros [= -> _]. eauto.
        -- intros H. exfalso. exact (on_exception_not_Success _ _ _ _ _ H).
      * intros H. exfalso. exact (on_exception_not_Success _ _ _ _ _ H).
    + destruct (status_code =? 404); [discriminate|].
      destruct (status_code =? 429); [|discriminate].
      destruct (attempt <? MAX_RETRIES - 1); discriminate.
  - intros H. exfalso. exact (on_exception_not_Success _ _ _ _ _ H).
Qed.

(** An exception leaves the inner [try] only when the transport raised it,
    or when reading the body did. *)
Lemma attempt_body_Raised_inv net prompt data attempt w e w' :
  attempt_body net prompt data attempt w = Raised e w' ->
  raised_by (net (calls w) data) = Some e \/ exn_class_of e = OtherException.
Proof.
  unfold attempt_body, raised_by.
  destruct (net (calls w) data) as [status_code json_body body_text|e0].
  - destruct (Z.eqb_spec status_code 200) as [->|_].
    + destruct json_body as [response_data|e0].
      * destruct (interpret response_data) as [[|t|]|e0] eqn:Hi; try discriminate.
        intros H. apply on_exception_Raised_inv in H. subst e0.
        right. exact (interpret_raises_other _ _ Hi).
      * intros H. apply on_exception_Raised_inv in H. subst e0. left. reflexivity.
    + destruct (status_code =? 404); [discriminate|].
      destruct (status_code =? 429); [|discriminate].
      destruct (attempt <? MAX_RETRIES - 1); discriminate.
  - intros H. apply on_exception_Raised_inv in H. subst e0. left. reflexivity.
Qed.

(** The loop ends with what its last attempt, one of the three, ends
    with. *)
Lemma retry_loop_last net prompt data w :
  exists (k : nat) (attempt : Z) (wk : world),
    (k < 3)%nat /\ calls wk = (k + calls w)%nat
    /\ retry_loop net prompt data (range MAX_RETRIES) w
       = attempt_body net prompt data attempt wk.
Proof.
  change (range MAX_RETRIES) with [0; 1; 2]. cbn [retry_loop].
  pose proof (attempt_body_shape net prompt data 0 w) as H0.
  destruct (attempt_body net prompt data 0 w) as [w0|o w0|e w0] eqn:E0;
    [|exists 0%nat, 0, w; rewrite E0; auto..].
  destruct H0 as (_ & s0 & _ & ->).
  pose proof (attempt_body_shape net prompt data 1 (sleep s0 (count_call w))) as H1.
  destruct (attempt_body net prompt data 1 (sleep s0 (count_call w)))
    as [w1|o w1|e w1] eqn:E1;
    [|exists 1%nat, 1, (sleep s0 (count_call w)); rewrite E1; auto..].
  destruct H1 as (_ & s1 & _ & ->).
  exists 2%nat, 2, (sleep s1 (count_call (sleep s0 (count_call w)))).
  split; [lia|]. split; [reflexivity|].
  destruct (attempt_body net prompt data 2 _); reflexivity.
Qed.

(** C10, as stated, fails: on a 200 response whose first part's [text] is
    not a string (here JSON [null]) the call returns that value, which is
    not a string. *)
Lemma get_response_may_return_a_non_string :
  fst (get_response (script [ok_200 (body_with_text JNull)] not_found)
                    "Hello" session_start)
  = Returns (Success JNull)
  /\ returned (Success JNull) = JNull
  /\ is_str (returned (Success JNull)) = false.
Proof. repeat split. Qed.

(** C10, amended: for every prompt, conversation and behaviour of the
    network, [get_response] comes back to its caller.  It lets through an
    exception only when the transport raised it on one of the three calls
    and it is not an [Exception] ([KeyboardInterrupt], [SystemExit]); every
    [Exception] raised inside becomes an error-message string.  The value
    returned is a string on every return but the Success one; there it is
    the [text] of the first part of the first candidate of a 200 body
    received in this call, as found, whatever its type.  So the call
    returns a string whenever no 200 body it receives has a first [text]
    that is not one. *)
Theorem get_response_is_total (net : network) (prompt : string) (w : world) :
  match fst (get_response net prompt w) with
  | Returns (Success response_text) =>
      returned (Success response_text) = response_text
      /\ exists (k : nat) o body_text,
           (k < 3)%nat
           /\ net (k + calls w)%nat (payload_of prompt w)
              = Response 200 (Ok (JObj o)) body_text
           /\ not_blocked o
           /\ first_text o response_text
  | Returns o => exists s, returned o = JStr s
  | Propagates e =>
      is_Exception e = false
      /\ exists k : nat,
           (k < 3)%nat
           /\ raised_by (net (k + calls w)%nat (payload_of prompt w)) = Some e
  end
  /\ ((forall (k : nat) o body_text response_text,
          (k < 3)%nat ->
          net (k + calls w)%nat (payload_of prompt w)
          = Response 200 (Ok (JObj o)) body_text ->
          not_blocked o ->
          first_text o response_text ->
          is_str response_text = true) ->
      match fst (get_response net prompt w) with
      | Returns o => is_str (returned o) = true
      | Propagates e => is_Exception e = false
      end).
Proof.
  assert (Hmain :
    match fst (get_response net prompt w) with
    | Returns (Success response_text) =>
        returned (Success response_text) = response_text
        /\ exists (k : nat) o body_text,
             (k < 3)%nat
             /\ net (k + calls w)%nat (payload_of prompt w)
                = Response 200 (Ok (JObj o)) body_text
             /\ not_blocked o
             /\ first_text o response_text
    | Returns o => exists s, returned o = JStr s
    | Propagates e =>
        is_Exception e = false
        /\ exists k : nat,
             (k < 3)%nat
             /\ raised_by (net (k + calls w)%nat (payload_of prompt w)) = Some e
    end).
  { rewrite get_response_eq.
    destruct (retry_loop_last net prompt (payload_of prompt w) w)
      as (k & attempt & wk & Hk & Hc & ->).
    destruct (attempt_body net prompt (payload_of prompt w) attempt wk)
      as [w'|o w'|e w'] eqn:E; cbn [fst].
    - simpl. eauto.
    - destruct o; simpl; eauto.
      apply attempt_body_Success_inv in E as (response_data & body_text & Hnet & Hi).
      apply interpret_Reply_inv in Hi as (o & -> & Hnb & Ht).
      split; [reflexivity|]. exists k, o, body_text. rewrite <- Hc. auto.
    - apply attempt_body_Raised_inv in E. rewrite Hc in E.
      assert (Hcases : is_Exception e = true
                       \/ (is_Exception e = false
                           /\ raised_by (net (k + calls w)%nat (payload_of prompt w))
                              = Some e)).
      { destruct E as [E|E].
        - destruct (is_Exception e); auto.
        - left. unfold is_Exception. rewrite E. reflexivity. }
      unfold on_Exception. destruct Hcases as [Hex|[Hex Hr]]; rewrite Hex.
      + destruct (str_in "API key" (exn_str e)); simpl; eauto.
      + simpl. split; [exact Hex|]. exists k. auto. }
  split; [exact Hmain|].
  intros Htext.
  destruct (fst (get_response net prompt w)) as [o|e]; [|apply Hmain].
  destruct o; try (destruct Hmain as [s ->]; reflexivity).
  destruct Hmain as (_ & k & o & body_text & Hk & Hnet & Hnb & Ht).
  simpl. exact (Htext k o body_text response_text Hk Hnet Hnb Ht).
Qed.

Lemma get_response_is_total_witness :
  match fst (get_response (script [too_many_requests; connection_error;
                                   ok_200 (body_with_text (JStr "Hi!"))] not_found)
                          "Hello" session_start) with
  | Returns o => is_str (returned o) = true
  | Propagates e => is_Exception e = false
  end.
Proof.
  apply (proj2 (get_response_is_total
                  (script [too_many_requests; connection_error;
                           ok_200 (body_with_text (JStr "Hi!"))] not_found)
                  "Hello" session_start)).
  intros k o body_text response_text Hk Hnet Hnb
         (candidate & candidates & content & part & parts & Hc & Hcontent & Hp & Ht).
  destruct k as [|[|[|k]]]; [discriminate|discriminate| |lia].
  injection Hnet as <- _. simpl in Hc. injection Hc as <- _.
  simpl in Hcontent. injection Hcontent as <-.
  simpl in Hp. injection Hp as <- _. simpl in Ht. injection Ht as <-. reflexivity.
Defined.

(** ** The length check of the session loop *)

Lemma length_lower s : String.length (lower s) = String.length s.
Proof. induction s as [|c s IH]; simpl; [reflexivity|]. rewrite IH. reflexivity. Qed.

Lemma eqb_length s t : String.eqb s t = true -> String.length s = String.length t.
Proof. intros H. apply String.eqb_eq in H. subst. reflexivity. Qed.

Lemma long_is_no_command s t :
  len s > MAX_TOKENS -> (String.length t < 10)%nat -> String.eqb (lower s) t = false.
Proof.
  intros Hlong Hshort. destruct (String.eqb (lower s) t) eqn:E; [|reflexivity].
  apply eqb_length in E. rewrite length_lower in E.
  unfold len, MAX_TOKENS in Hlong. lia.
Qed.

Lemma long_is_not_empty s : len s > MAX_TOKENS -> String.eqb s "" = false.
Proof.
  intros Hlong. destruct (String.eqb s "") eqn:E; [|reflexivity].
  apply eqb_length in E. unfold len, MAX_TOKENS in Hlong. simpl in E. lia.
Qed.

(** C8, as stated, fails: the length that is checked is the one of the line
    once stripped.  A line of [MAX_TOKENS] letters and a trailing blank is
    longer than [MAX_TOKENS] and is sent to the network; a line of blanks
    only, however long, is ignored without any message. *)
Lemma long_line_with_trailing_blank_is_sent :
  let raw := repeat_char "a" (Z.to_nat MAX_TOKENS) +:+ " " in
  let blanks := repeat_char " " (Z.to_nat (MAX_TOKENS + 1)) in
  (len raw >? MAX_TOKENS) = true
  /\ calls session_start = 0%nat
  /\ calls (snd (main_iteration (fun _ => "") renders_all (script [] not_found) (Line raw)
                                session_start)) = 1%nat
  /\ (len blanks >? MAX_TOKENS) = true
  /\ main_iteration (fun _ => "") renders_all (script [] not_found) (Line blanks)
                    session_start
     = (LoopOn, log_output prompt_banner session_start).
Proof. vm_compute. repeat split. Qed.

(** C8, amended: for every input line whose length in characters, once
    leading and trailing whitespace is stripped, exceeds [MAX_TOKENS], the
    iteration of the session loop prints the rejection message and nothing
    else, goes on to the next line, and does not call the handler: the count
    of HTTP calls and the history are what they were. *)
Theorem long_input_is_rejected
        (py_str : json -> string) (render_error : console_out -> option exn)
        (net : network) (raw : string) (w : world) :
  len (strip raw) > MAX_TOKENS ->
  main_iteration py_str render_error net (Line raw) w
  = (LoopOn, log_output too_long_message (log_output prompt_banner w))
  /\ calls (snd (main_iteration py_str render_error net (Line raw) w)) = calls w
  /\ sleeps (snd (main_iteration py_str render_error net (Line raw) w)) = sleeps w
  /\ history (snd (main_iteration py_str render_error net (Line raw) w)) = history w.
Proof.
  intros Hlong.
  assert (Hit : main_iteration py_str render_error net (Line raw) w
                = (LoopOn, log_output too_long_message (log_output prompt_banner w))).
  { unfold main_iteration.
    rewrite (long_is_not_empty _ Hlong).
    rewrite !(long_is_no_command _ _ Hlong) by (simpl; lia).
    cbn [orb].
    assert (Hgt : (len (strip raw) >? MAX_TOKENS) = true) by (apply Z.gtb_lt; lia).
    rewrite Hgt. reflexivity. }
  rewrite Hit. repeat split.
Qed.

Lemma long_input_is_rejected_witness :
  let raw := String "160"%char " " +:+ repeat_char "a" (Z.to_nat (MAX_TOKENS + 1)) in
  main_iteration (fun _ => "") rejects_stray_tags (script [] not_found) (Line raw)
                 session_start
  = (LoopOn, log_output too_long_message (log_output prompt_banner session_start))
  /\ calls (snd (main_iteration (fun _ => "") rejects_stray_tags (script [] not_found)
                                (Line raw) session_start)) = calls session_start
  /\ sleeps (snd (main_iteration (fun _ => "") rejects_stray_tags (script [] not_found)
                                 (Line raw) session_start)) = sleeps session_start
  /\ history (snd (main_iteration (fun _ => "") rejects_stray_tags (script [] not_found)
                                  (Line raw) session_start)) = history session_start.
Proof.
  intros raw.
  apply (long_input_is_rejected (fun _ => "") rejects_stray_tags (script [] not_found)
           raw session_start).
  vm_compute. reflexivity.
Defined.

(** ** Worlds the session reaches *)

Lemma console_only_refl w : console_only w w.
Proof. repeat split. Qed.

Lemma console_only_trans w1 w2 w3 :
  console_only w1 w2 -> console_only w2 w3 -> console_only w1 w3.
Proof.
  unfold console_only. intros (? & ? & ? & ?) (? & ? & ? & ?).
  repeat split; congruence.
Qed.

Lemma console_only_log_output o w : console_only w (log_output o w).
Proof. repeat split. Qed.

Lemma console_only_console_print render_error o w w' :
  console_print render_error o w = Ok w' -> console_only w w'.
Proof.
  unfold console_print. destruct (render_error o); [discriminate|].
  intros [= <-]. apply console_only_log_output.
Qed.

Lemma console_only_format_response py_str render_error v w formatted w' :
  format_response py_str render_error v w = Ok (formatted, w') -> console_only w w'.
Proof.
  unfold format_response. destruct v; try (intros [= _ <-]; apply console_only_refl).
  destruct (str_in "```" s || str_in "#" s || str_in "*" s);
    [|intros [= _ <-]; apply console_only_refl].
  destruct (console_print render_error (PrintedMarkdown s) w) as [w1|e] eqn:E1.
  - intros [= _ <-]. exact (console_only_console_print _ _ _ _ E1).
  - destruct (is_Exception e); [|discriminate].
    match goal with |- context [console_print render_error ?o w] =>
      destruct (console_print render_error o w) as [w2|e'] eqn:E2 end.
    + intros [= _ <-]. exact (console_only_console_print _ _ _ _ E2).
    + discriminate.
Qed.

Lemma console_only_main_except render_error e w :
  console_only w (snd (main_except render_error e w)).
Proof.
  unfold main_except.
  destruct (exn_class_of e); try apply console_only_refl;
    try apply console_only_log_output;
    destruct (console_print render_error _ w) as [w'|e'] eqn:E; simpl;
      try apply console_only_refl; exact (console_only_console_print _ _ _ _ E).
Qed.

Lemma console_only_wf w w' : console_only w w' -> wf w -> wf w'.
Proof. unfold console_only, wf. intros (-> & -> & _). auto. Qed.

Lemma console_only_history w w' : console_only w w' -> history w' = history w.
Proof.
  unfold console_only, history, deref, Conversation.get_messages.
  intros (-> & -> & _). reflexivity.
Qed.

(** A line that is sent leaves the world [get_response] left, but for what
    was printed. *)
Lemma main_iteration_prompt py_str render_error net raw w :
  is_prompt (strip raw) = true ->
  main_iteration py_str render_error net (Line raw) w
  = match get_response net (strip raw)
                       (log_output chatbot_banner (log_output prompt_banner w)) with
    | (Propagates e, w2) => main_except render_error e w2
    | (Returns o, w2) =>
        if truthy (returned o) then
          match format_response py_str render_error (returned o) w2 with
          | Raise e => main_except render_error e w2
          | Ok (formatted_response, w3) =>
              if negb (String.eqb formatted_response "") then
                match console_print render_error (Printed formatted_response) w3 with
                | Ok w' => (LoopOn, w')
                | Raise e => main_except render_error e w3
                end
              else
                (LoopOn, log_output
                           (Printed "[red]Error: Empty response after formatting[/red]") w3)
          end
        else (LoopOn, log_output empty_response_message w2)
    end.
Proof.
  unfold is_prompt, is_quit, is_clear. intros H.
  apply andb_prop in H as [H Hlen]. apply andb_prop in H as [H Hclear].
  apply andb_prop in H as [Hempty Hquit].
  apply negb_true_iff in Hlen, Hclear, Hempty, Hquit.
  unfold main_iteration. rewrite Hempty, Hquit, Hclear, Hlen. reflexivity.
Qed.

Lemma main_iteration_prompt_world py_str render_error net raw w :
  is_prompt (strip raw) = true ->
  console_only
    (snd (get_response net (strip raw)
            (log_output chatbot_banner (log_output prompt_banner w))))
    (snd (main_iteration py_str render_error net (Line raw) w)).
Proof.
  intros Hp. rewrite (main_iteration_prompt py_str render_error net raw w Hp).
  destruct (get_response net (strip raw) _) as [[o|e] w2]; cbn [snd];
    [|apply console_only_main_except].
  destruct (truthy (returned o)); [|apply console_only_log_output].
  destruct (format_response py_str render_error (returned o) w2)
    as [[formatted w3]|e] eqn:Ef; [|apply console_only_main_except].
  pose proof (console_only_format_response _ _ _ _ _ _ Ef) as H23.
  destruct (negb (String.eqb formatted "")).
  - destruct (console_print render_error (Printed formatted) w3) as [w4|e] eqn:Ep.
    + exact (console_only_trans _ _ _ H23 (console_only_console_print _ _ _ _ Ep)).
    + exact (console_only_trans _ _ _ H23 (console_only_main_except _ _ _)).
  - exact (console_only_trans _ _ _ H23 (console_only_log_output _ _)).
Qed.

(** What an iteration does to the store and to the count of calls, by the
    kind of line it reads. *)
Lemma main_iteration_not_prompt py_str render_error net raw w :
  is_prompt (strip raw) = false ->
  snd (main_iteration py_str render_error net (Line raw) w)
  = if String.eqb (strip raw) "" then log_output prompt_banner w
    else if is_quit (strip raw) then log_output goodbye (log_output prompt_banner w)
    else if is_clear (strip raw)
         then log_output cleared_message (Conversation.clear (log_output prompt_banner w))
         else log_output too_long_message (log_output prompt_banner w).
Proof.
  unfold is_prompt, is_quit, is_clear, main_iteration. intros Hp.
  destruct (String.eqb (strip raw) ""); [reflexivity|].
  destruct (String.eqb (lower (strip raw)) "quit"
            || String.eqb (lower (strip raw)) "exit"); [reflexivity|].
  destruct (String.eqb (lower (strip raw)) "clear"); [reflexivity|].
  destruct (len (strip raw) >? MAX_TOKENS); [reflexivity|discriminate].
Qed.

Lemma wf_main_iteration py_str render_error net ev w :
  wf w -> wf (snd (main_iteration py_str render_error net ev w)).
Proof.
  intros Hwf. destruct ev as [raw|e].
  - destruct (is_prompt (strip raw)) eqn:Hp.
    + apply (console_only_wf _ _ (main_iteration_prompt_world _ _ net raw w Hp)).
      apply get_response_wf. exact Hwf.
    + rewrite (main_iteration_not_prompt _ _ net raw w Hp).
      destruct (String.eqb (strip raw) ""); [exact Hwf|].
      destruct (is_quit (strip raw)); [exact Hwf|].
      destruct (is_clear (strip raw)); [|exact Hwf].
      apply (wf_clear (log_output prompt_banner w)).
  - unfold main_iteration.
    apply (console_only_wf (log_output prompt_banner w));
      [apply console_only_main_except|exact Hwf].
Qed.

Lemma wf_main_loop py_str render_error net inputs : forall w,
  wf w -> wf (snd (main_loop py_str render_error net inputs w)).
Proof.
  induction inputs as [|ev rest IH]; intros w Hwf; simpl; [exact Hwf|].
  pose proof (wf_main_iteration py_str render_error net ev w Hwf) as Hwf1.
  destruct (main_iteration py_str render_error net ev w) as [[| |e] w1]; simpl in *; auto.
Qed.

Lemma wf_main py_str render_error net inputs w :
  wf (snd (main py_str render_error net inputs w)).
Proof. unfold main. apply wf_main_loop, wf_init. Qed.

(** * Further properties of the handler *)

(** The calls and sleeps of one run of the loop: it ends on attempt [k],
    after [k] sleeps, the first of one second and the second of one or two
    seconds, and never by running out of attempts. *)
Lemma retry_loop_shape net prompt data w :
  exists (k : nat) (s : list Z),
    (k < 3)%nat /\ length s = k /\
    (s = [] \/ s = [RATE_LIMIT_DELAY] \/ s = [RATE_LIMIT_DELAY; RATE_LIMIT_DELAY]
     \/ s = [RATE_LIMIT_DELAY; RATE_LIMIT_DELAY * 2]) /\
    match retry_loop net prompt data (range MAX_RETRIES) w with
    | Normal _ => False
    | Return o w' =>
        o <> Unexpected /\ calls w' = (S k + calls w)%nat /\ sleeps w' = sleeps w ++ s
    | Raised e w' => calls w' = (S k + calls w)%nat /\ sleeps w' = sleeps w ++ s
    end.
Proof.
  change (range MAX_RETRIES) with [0; 1; 2]. cbn [retry_loop].
  pose proof (attempt_body_shape net prompt data 0 w) as H0.
  destruct (attempt_body net prompt data 0 w) as [w0|o w0|e w0].
  2:{ exists 0%nat, []. destruct H0 as (? & ? & ?). rewrite app_nil_r. auto 10. }
  2:{ exists 0%nat, []. subst w0. rewrite app_nil_r. auto 10. }
  destruct H0 as (_ & s0 & Hs0 & ->).
  assert (Hs0' : s0 = RATE_LIMIT_DELAY) by (destruct Hs0; subst; reflexivity).
  subst s0. clear Hs0.
  pose proof (attempt_body_shape net prompt data 1
                (sleep RATE_LIMIT_DELAY (count_call w))) as H1.
  destruct (attempt_body net prompt data 1 (sleep RATE_LIMIT_DELAY (count_call w)))
    as [w1|o w1|e w1].
  2:{ exists 1%nat, [RATE_LIMIT_DELAY]. destruct H1 as (? & ? & ?). auto 10. }
  2:{ exists 1%nat, [RATE_LIMIT_DELAY]. subst w1. auto 10. }
  destruct H1 as (_ & s1 & Hs1 & ->).
  pose proof (attempt_body_shape net prompt data 2
                (sleep s1 (count_call (sleep RATE_LIMIT_DELAY (count_call w))))) as H2.
  destruct (attempt_body net prompt data 2
              (sleep s1 (count_call (sleep RATE_LIMIT_DELAY (count_call w)))))
    as [w2|o w2|e w2].
  - destruct H2 as (Hlt & _). discriminate.
  - exists 2%nat, [RATE_LIMIT_DELAY; s1]. destruct H2 as (? & ? & Hsl).
    rewrite Hsl. simpl. rewrite <- app_assoc.
    repeat split; auto. destruct Hs1; subst; auto.
  - exists 2%nat, [RATE_LIMIT_DELAY; s1]. subst w2. simpl. rewrite <- app_assoc.
    repeat split; auto. destruct Hs1; subst; auto.
Qed.

Lemma get_response_shape net prompt w :
  exists (k : nat) (s : list Z),
    (k < 3)%nat /\ length s = k /\
    (s = [] \/ s = [RATE_LIMIT_DELAY] \/ s = [RATE_LIMIT_DELAY; RATE_LIMIT_DELAY]
     \/ s = [RATE_LIMIT_DELAY; RATE_LIMIT_DELAY * 2]) /\
    fst (get_response net prompt w) <> Returns Unexpected /\
    calls (snd (get_response net prompt w)) = (S k + calls w)%nat /\
    sleeps (snd (get_response net prompt w)) = sleeps w ++ s.
Proof.
  rewrite get_response_eq.
  destruct (retry_loop_shape net prompt (payload_of prompt w) w)
    as (k & s & Hk & Hlen & Hs & H).
  exists k, s.
  destruct (retry_loop net prompt (payload_of prompt w) (range MAX_RETRIES) w)
    as [w'|o w'|e w']; [contradiction| |].
  - destruct H as (Ho & Hc & Hsl). simpl.
    split; [exact Hk|]. split; [exact Hlen|]. split; [exact Hs|].
    split; [|split; assumption]. intros Heq. apply Ho. congruence.
  - destruct H as (Hc & Hsl). simpl.
    split; [exact Hk|]. split; [exact Hlen|]. split; [exact Hs|].
    split; [|split; assumption].
    unfold on_Exception. destruct (is_Exception e); [|discriminate].
    destruct (str_in "API key" (exn_str e)); discriminate.
Qed.

(** X1: every call of [get_response] issues at least one and at most
    [MAX_RETRIES] HTTP calls, and sleeps exactly once between two
    consecutive calls: the sleeps it adds are none, [1], [1; 1] or [1; 2]
    seconds, so a call never sleeps longer than three seconds in all. *)
Theorem get_response_calls_and_sleeps (net : network) (prompt : string) (w : world) :
  let w' := snd (get_response net prompt w) in
  (calls w < calls w')%nat
  /\ (Z.of_nat (calls w') <= Z.of_nat (calls w) + MAX_RETRIES)
  /\ exists s,
       sleeps w' = sleeps w ++ s
       /\ S (length s) = (calls w' - calls w)%nat
       /\ (s = [] \/ s = [RATE_LIMIT_DELAY] \/ s = [RATE_LIMIT_DELAY; RATE_LIMIT_DELAY]
           \/ s = [RATE_LIMIT_DELAY; RATE_LIMIT_DELAY * 2])
       /\ fold_right Z.add 0 s <= 3.
Proof.
  destruct (get_response_shape net prompt w) as (k & s & Hk & Hlen & Hs & _ & Hc & Hsl).
  simpl. rewrite Hc. split; [lia|]. split; [unfold MAX_RETRIES; lia|].
  exists s. repeat split; auto; [lia|].
  destruct Hs as [ -> | [ -> | [ -> | -> ] ] ]; vm_compute; discriminate.
Qed.

(** X2: the fallback [return] after the loop (line 120) is dead code: no
    prompt, conversation or behaviour of the network makes [get_response]
    return ["An unexpected error occurred"] through it, because the third
    attempt always leaves the function. *)
Theorem fallback_is_never_reached (net : network) (prompt : string) (w : world) :
  fst (get_response net prompt w) <> Returns Unexpected
  /\ match retry_loop net prompt (payload_of prompt w) (range MAX_RETRIES) w with
     | Normal _ => False
     | _ => True
     end.
Proof.
  destruct (get_response_shape net prompt w) as (k & s & _ & _ & _ & Hne & _).
  split; [exact Hne|].
  destruct (retry_loop_shape net prompt (payload_of prompt w) w) as (k' & s' & _ & _ & _ & H).
  destruct (retry_loop _ _ _ _ _); auto.
Qed.

(** ** What the handler asks of the network *)

Lemma attempt_body_ext net1 net2 prompt data attempt w :
  net1 (calls w) data = net2 (calls w) data ->
  attempt_body net1 prompt data attempt w = attempt_body net2 prompt data attempt w.
Proof. intros H. unfold attempt_body. rewrite H. reflexivity. Qed.

Lemma retry_loop_ext net1 net2 prompt data attempts : forall w,
  (forall n, (calls w <= n < calls w + length attempts)%nat ->
             net1 n data = net2 n data) ->
  retry_loop net1 prompt data attempts w = retry_loop net2 prompt data attempts w.
Proof.
  induction attempts as [|attempt rest IH]; intros w Hagree; [reflexivity|].
  cbn [retry_loop].
  rewrite (attempt_body_ext net1 net2) by (apply Hagree; simpl; lia).
  pose proof (attempt_body_shape net2 prompt data attempt w) as Hshape.
  destruct (attempt_body net2 prompt data attempt w) as [w'|o w'|e w']; try reflexivity.
  destruct Hshape as (_ & secs & _ & ->).
  apply IH. intros n Hn. apply Hagree. simpl in *. lia.
Qed.

(** X3: a call of [get_response] builds its payload once, from the history
    and the prompt as they are when it is called, and sends that same
    payload on every attempt: two networks that answer alike to this
    payload on the next [MAX_RETRIES] calls make [get_response] return the
    same value and leave the same world. *)
Theorem get_response_sends_one_payload
        (net1 net2 : network) (prompt : string) (w : world) :
  (forall n, (calls w <= n < calls w + 3)%nat ->
             net1 n (payload_of prompt w) = net2 n (payload_of prompt w)) ->
  get_response net1 prompt w = get_response net2 prompt w.
Proof.
  intros Hagree. rewrite !get_response_eq.
  rewrite (retry_loop_ext net1 net2); [reflexivity|].
  intros n Hn. apply Hagree. exact Hn.
Qed.

Lemma get_response_sends_one_payload_witness :
  let picky : network :=
    fun n data =>
      if (length (contents data) =? 1)%nat then ok_200 (body_with_text (JStr "Hi!"))
      else not_found in
  get_response picky "Hello" session_start
  = get_response (script [] (ok_200 (body_with_text (JStr "Hi!")))) "Hello" session_start.
Proof.
  intros picky.
  apply (get_response_sends_one_payload picky
           (script [] (ok_200 (body_with_text (JStr "Hi!")))) "Hello" session_start).
  intros n Hn. unfold picky, script. destruct n as [|[|[|n]]]; reflexivity.
Defined.

(** ** Failures of the transport *)

Lemma attempt_body_raised net prompt data attempt w e :
  raised_by (net (calls w) data) = Some e ->
  attempt_body net prompt data attempt w = on_exception attempt e (count_call w).
Proof.
  unfold attempt_body, raised_by.
  destruct (net (calls w) data) as [status_code [response_data|e'] body_text|e'].
  - discriminate.
  - destruct (status_code =? 200); [|discriminate]. intros [= ->]. reflexivity.
  - intros [= ->]. reflexivity.
Qed.

(** X4: a [RequestException] (raised by [requests.post], or by
    [response.json()] on a 200) is retried after a sleep of
    [RATE_LIMIT_DELAY] seconds, the same at every attempt, while attempts
    remain; when all three attempts fail in this way the call returns
    ["Network error: "] followed by the text of the last exception, after
    three calls and two sleeps of [RATE_LIMIT_DELAY], and the history is as
    it was. *)
Theorem network_errors_are_retried
        (net : network) (prompt : string) (w : world) (e0 e1 e2 : exn) :
  raised_by (net (calls w) (payload_of prompt w)) = Some e0 ->
  raised_by (net (S (calls w)) (payload_of prompt w)) = Some e1 ->
  raised_by (net (S (S (calls w))) (payload_of prompt w)) = Some e2 ->
  is_RequestException e0 = true ->
  is_RequestException e1 = true ->
  is_RequestException e2 = true ->
  get_response net prompt w
  = (Returns (NetworkError (exn_str e2)),
     after_calls 3 [RATE_LIMIT_DELAY; RATE_LIMIT_DELAY] w)
  /\ returned (NetworkError (exn_str e2)) = JStr ("Network error: " +:+ exn_str e2)
  /\ history (snd (get_response net prompt w)) = history w.
Proof.
  intros H0 H1 H2 R0 R1 R2.
  assert (Hget : get_response net prompt w
                 = (Returns (NetworkError (exn_str e2)),
                    after_calls 3 [RATE_LIMIT_DELAY; RATE_LIMIT_DELAY] w)).
  { rewrite get_response_eq. change (range MAX_RETRIES) with [0; 1; 2].
    cbn [retry_loop].
    rewrite (attempt_body_raised _ _ _ _ _ e0) by exact H0.
    unfold on_exception at 1. rewrite R0.
    change (0 <? MAX_RETRIES - 1) with true. cbv iota. cbn [retry_loop].
    rewrite (attempt_body_raised _ _ _ _ _ e1) by exact H1.
    unfold on_exception at 1. rewrite R1.
    change (1 <? MAX_RETRIES - 1) with true. cbv iota. cbn [retry_loop].
    rewrite (attempt_body_raised _ _ _ _ _ e2) by exact H2.
    unfold on_exception at 1. rewrite R2.
    change (2 <? MAX_RETRIES - 1) with false. cbv iota.
    f_equal. unfold after_calls, sleep, count_call.
    cbn [lists conv_history calls sleeps console]. rewrite <- app_assoc. reflexivity. }
  rewrite Hget. repeat split.
Qed.

Lemma network_errors_are_retried_witness :
  let timeout := PostRaises (Exn RequestException "Read timed out") in
  let bad_json := Response 200 (Raise (Exn RequestException "Expecting value")) "<html>" in
  get_response (script [connection_error; bad_json; timeout] not_found)
               "Hello" session_start
  = (Returns (NetworkError "Read timed out"),
     after_calls 3 [RATE_LIMIT_DELAY; RATE_LIMIT_DELAY] session_start).
Proof.
  intros timeout bad_json.
  apply (network_errors_are_retried
           (script [connection_error; bad_json; timeout] not_found) "Hello" session_start
           (Exn RequestException "Connection refused")
           (Exn RequestException "Expecting value")
           (Exn RequestException "Read timed out")); reflexivity.
Defined.

(** X5: a response whose status is none of 200, 404 and 429 is not retried,
    at any attempt: the call returns at once the text
    ["Error: API returned status code <status>. Response: <body>"], with the
    body of the response in full; received on the first attempt, one HTTP
    call has been made, nothing has slept and the history is as it was. *)
Theorem other_status_is_not_retried
        (net : network) (prompt : string) (w : world)
        (status_code : Z) (json_body : result json) (body_text : string) :
  net (calls w) (payload_of prompt w) = Response status_code json_body body_text ->
  status_code <> 200 -> status_code <> 404 -> status_code <> 429 ->
  get_response net prompt w = (Returns (HttpError status_code body_text), count_call w)
  /\ returned (HttpError status_code body_text)
     = JStr ("Error: API returned status code " +:+ str_of_int status_code
             +:+ ". Response: " +:+ body_text)
  /\ (forall attempt,
         attempt_body net prompt (payload_of prompt w) attempt w
         = Return (HttpError status_code body_text) (count_call w)).
Proof.
  intros Hnet H200 H404 H429.
  assert (Hbody : forall attempt,
             attempt_body net prompt (payload_of prompt w) attempt w
             = Return (HttpError status_code body_text) (count_call w)).
  { intros attempt. unfold attempt_body. rewrite Hnet.
    destruct (Z.eqb_spec status_code 200); [contradiction|].
    destruct (Z.eqb_spec status_code 404); [contradiction|].
    destruct (Z.eqb_spec status_code 429); [contradiction|]. reflexivity. }
  split; [|split; [reflexivity|exact Hbody]].
  rewrite get_response_eq. change (range MAX_RETRIES) with [0; 1; 2].
  cbn [retry_loop]. rewrite Hbody. reflexivity.
Qed.

Lemma other_status_is_not_retried_witness :
  get_response (script [server_error] (ok_200 (body_with_text (JStr "Hi!"))))
               "Hello" session_start
  = (Returns (HttpError 500 "Internal error"), count_call session_start)
  /\ returned (HttpError 500 "Internal error")
     = JStr "Error: API returned status code 500. Response: Internal error".
Proof.
  destruct (other_status_is_not_retried
              (script [server_error] (ok_200 (body_with_text (JStr "Hi!"))))
              "Hello" session_start 500
              (Raise (Exn OtherException "Expecting value")) "Internal error")
    as (Hget & Hret & _); try reflexivity; try discriminate.
  split; [exact Hget|exact Hret].
Defined.

(** X6: an exception that is an [Exception] but not a [RequestException],
    raised by [requests.post] on the first attempt, is not retried: after
    that one call [get_response] returns the API-key advice when the text
    of the exception contains ["API key"], and ["An error occurred: "]
    followed by that text otherwise. *)
Theorem other_exception_is_reported
        (net : network) (prompt : string) (w : world) (message : string) :
  net (calls w) (payload_of prompt w) = PostRaises (Exn OtherException message) ->
  get_response net prompt w
  = (Returns (if str_in "API key" message then ApiKeyError else OtherError message),
     count_call w)
  /\ returned (OtherError message) = JStr ("An error occurred: " +:+ message)
  /\ returned ApiKeyError
     = JStr "Error: Please make sure you have set up your GOOGLE_API_KEY in the .env file".
Proof.
  intros Hnet. split; [|split; reflexivity].
  rewrite get_response_eq. change (range MAX_RETRIES) with [0; 1; 2].
  cbn [retry_loop]. unfold attempt_body. rewrite Hnet.
  unfold on_exception, is_RequestException. simpl.
  unfold on_Exception, is_Exception. simpl.
  destruct (str_in "API key" message); reflexivity.
Qed.

Lemma other_exception_is_reported_witness :
  get_response (script [PostRaises (Exn OtherException "Invalid API key format")] not_found)
               "Hello" session_start
  = (Returns ApiKeyError, count_call session_start)
  /\ get_response (script [PostRaises (Exn OtherException "Invalid URL")] not_found)
                  "Hello" session_start
     = (Returns (OtherError "Invalid URL"), count_call session_start).
Proof.
  split.
  - apply (other_exception_is_reported
             (script [PostRaises (Exn OtherException "Invalid API key format")] not_found)
             "Hello" session_start "Invalid API key format"). reflexivity.
  - apply (other_exception_is_reported
             (script [PostRaises (Exn OtherException "Invalid URL")] not_found)
             "Hello" session_start "Invalid URL"). reflexivity.
Defined.

(** ** Reading the body of a 200 response *)

Lemma interpret_unblocked o :
  not_blocked o ->
  interpret (JObj o)
  = (has_candidates <- py_in "candidates" (JObj o) ;;
     some_candidate <- (if has_candidates : bool then
                          candidates <- py_getitem (JObj o) "candidates" ;;
                          n <- py_len candidates ;;
                          Ok (n >? 0)
                        else Ok false) ;;
     if some_candidate : bool then
       candidates <- py_getitem (JObj o) "candidates" ;;
       candidate <- py_getitem0 candidates ;;
       content <- py_getitem candidate "content" ;;
       has_parts <- py_in "parts" content ;;
       some_part <- (if has_parts : bool then
                       parts <- py_getitem content "parts" ;;
                       n <- py_len parts ;;
                       Ok (n >? 0)
                     else Ok false) ;;
       if some_part : bool then
         parts <- py_getitem content "parts" ;;
         part <- py_getitem0 parts ;;
         response_text <- py_getitem part "text" ;;
         Ok (Reply response_text)
       else Ok NoReply
     else Ok NoReply)%py.
Proof.
  intros Hnb. unfold interpret.
  destruct Hnb as [Hf|(feedback & Hf & Ht)]; simpl; rewrite Hf; simpl;
    [reflexivity|]. rewrite Ht. reflexivity.
Qed.

Lemma interpret_reply o response_text :
  not_blocked o -> first_text o response_text ->
  interpret (JObj o) = Ok (Reply response_text).
Proof.
  intros Hnb (candidate & candidates & content & part & parts & Hc & Hcontent & Hp & Ht).
  rewrite (interpret_unblocked o Hnb). simpl. rewrite Hc. simpl.
  rewrite Hcontent. simpl. rewrite Hp. simpl. rewrite Ht. reflexivity.
Qed.

Lemma interpret_no_text o :
  not_blocked o -> no_text o -> interpret (JObj o) = Ok NoReply.
Proof.
  intros Hnb Hc. rewrite (interpret_unblocked o Hnb). simpl.
  destruct Hc as [Hc|[Hc|(candidate & rest & content & Hc & Hcontent & Hp)]];
    rewrite Hc; simpl; try reflexivity.
  rewrite Hcontent. simpl. destruct Hp as [Hp|Hp]; rewrite Hp; reflexivity.
Qed.

(** X7: from a 200 response whose body object carries no block, the reply
    is the [text] of the first part of the [content] of the first
    candidate; further candidates and parts are not looked at, and a
    [promptFeedback] without a true [blockReason] does not block.  On
    whichever attempt the response arrives, [get_response] returns that
    text and the history grows by the user Turn with the prompt and the
    model Turn with the text. *)
Theorem first_text_is_the_reply
        (net : network) (prompt : string) (w : world) (k : nat)
        (o : list (string * json)) (response_text : json) (body_text : string) :
  wf w ->
  (k < 3)%nat ->
  (forall j, (j < k)%nat ->
             retried (net (j + calls w)%nat (payload_of prompt w)) = true) ->
  net (k + calls w)%nat (payload_of prompt w) = Response 200 (Ok (JObj o)) body_text ->
  not_blocked o ->
  first_text o response_text ->
  fst (get_response net prompt w) = Returns (Success response_text)
  /\ returned (Success response_text) = response_text
  /\ history (snd (get_response net prompt w))
     = history w ++ [Msg "user" (JStr prompt); Msg "model" response_text]
  /\ calls (snd (get_response net prompt w)) = (S k + calls w)%nat.
Proof.
  intros Hwf Hk Hr H200 Hnb Ht.
  pose proof (get_response_history net prompt w Hwf) as Hh.
  destruct (get_response_parsed net prompt w k (JObj o) body_text Hk Hr H200)
    as (s & _ & Hget).
  unfold on_parsed in Hget. rewrite (interpret_reply o response_text Hnb Ht) in Hget.
  rewrite Hget in *. simpl in *. repeat split. exact Hh.
Qed.

Lemma first_text_is_the_reply_witness :
  let body :=
    JObj [("promptFeedback", JObj [("safetyRatings", JArr [])]);
          ("candidates",
           JArr [JObj [("content", JObj [("parts", JArr [JObj [("text", JStr "Hi!")];
                                                        JObj [("text", JStr "there")]])])];
                 JObj [("content", JObj [("parts", JArr [JObj [("text", JStr "Other")]])])]])] in
  let net := script [connection_error; ok_200 body] not_found in
  fst (get_response net "Hello" session_start) = Returns (Success (JStr "Hi!"))
  /\ returned (Success (JStr "Hi!")) = JStr "Hi!"
  /\ history (snd (get_response net "Hello" session_start))
     = history session_start ++ [Msg "user" (JStr "Hello"); Msg "model" (JStr "Hi!")]
  /\ calls (snd (get_response net "Hello" session_start)) = (2 + calls session_start)%nat.
Proof.
  intros body net.
  apply (first_text_is_the_reply net "Hello" session_start 1
           [("promptFeedback", JObj [("safetyRatings", JArr [])]);
            ("candidates",
             JArr [JObj [("content", JObj [("parts", JArr [JObj [("text", JStr "Hi!")];
                                                          JObj [("text", JStr "there")]])])];
                   JObj [("content", JObj [("parts", JArr [JObj [("text", JStr "Other")]])])]])]
           (JStr "Hi!") "").
  - unfold wf. simpl. lia.
  - lia.
  - intros j Hj. destruct j as [|j]; [reflexivity|lia].
  - reflexivity.
  - right. exists [("safetyRatings", JArr [])]. split; reflexivity.
  - exists [("content", JObj [("parts", JArr [JObj [("text", JStr "Hi!")];
                                              JObj [("text", JStr "there")]])])],
           [JObj [("content", JObj [("parts", JArr [JObj [("text", JStr "Other")]])])]],
           [("parts", JArr [JObj [("text", JStr "Hi!")]; JObj [("text", JStr "there")]])],
           [("text", JStr "Hi!")], [JObj [("text", JStr "there")]].
    repeat split.
Defined.

(** X8: a 200 response whose body object carries no block and has nothing
    to reply with ([candidates] missing or an empty list, or the first
    candidate's [content] an object whose [parts] is missing or an empty
    list) makes [get_response] return ["No response generated"], on
    whichever attempt it arrives, and the history is as it was. *)
Theorem nothing_to_reply_is_Empty
        (net : network) (prompt : string) (w : world) (k : nat)
        (o : list (string * json)) (body_text : string) :
  (k < 3)%nat ->
  (forall j, (j < k)%nat ->
             retried (net (j + calls w)%nat (payload_of prompt w)) = true) ->
  net (k + calls w)%nat (payload_of prompt w) = Response 200 (Ok (JObj o)) body_text ->
  not_blocked o ->
  no_text o ->
  fst (get_response net prompt w) = Returns Empty
  /\ returned Empty = JStr "No response generated"
  /\ history (snd (get_response net prompt w)) = history w
  /\ calls (snd (get_response net prompt w)) = (S k + calls w)%nat.
Proof.
  intros Hk Hr H200 Hnb Hnt.
  destruct (get_response_parsed net prompt w k (JObj o) body_text Hk Hr H200)
    as (s & _ & ->).
  unfold on_parsed. rewrite (interpret_no_text o Hnb Hnt). repeat split.
Qed.

Lemma nothing_to_reply_is_Empty_witness :
  let net := script [ok_200 (JObj [("candidates", JArr [])])] not_found in
  fst (get_response net "Hello" session_start) = Returns Empty
  /\ returned Empty = JStr "No response generated"
  /\ history (snd (get_response net "Hello" session_start)) = history session_start
  /\ calls (snd (get_response net "Hello" session_start)) = (1 + calls session_start)%nat.
Proof.
  intros net.
  apply (nothing_to_reply_is_Empty net "Hello" session_start 0
           [("candidates", JArr [])] "").
  - lia.
  - intros j Hj. lia.
  - reflexivity.
  - left. reflexivity.
  - right. left. reflexivity.
Defined.

(** X9: the context sent with a request is the history as the calls before
    it left it.  After a call that succeeded, the payload of the next
    request is the payload that call sent, followed by the model's reply and
    the new prompt; after a call that did not succeed it is what it would
    have been without that call: the prompt of a failed exchange is not
    sent again. *)
Theorem next_payload_extends_the_last
        (net : network) (prompt next_prompt : string) (w : world) :
  wf w ->
  let r := fst (get_response net prompt w) in
  let w' := snd (get_response net prompt w) in
  contents (payload_of next_prompt w')
  = match r with
    | Returns (Success response_text) =>
        contents (payload_of prompt w)
        ++ [Entry "model" [Part response_text]; Entry "user" [Part (JStr next_prompt)]]
    | _ => contents (payload_of next_prompt w)
    end.
Proof.
  intros Hwf. cbv zeta. rewrite !payload_of_eq. cbn [contents].
  rewrite (get_response_history net prompt w Hwf).
  destruct (fst (get_response net prompt w)) as [[]|]; simpl;
    rewrite ?app_nil_r; try reflexivity.
  rewrite map_app, <- !app_assoc. reflexivity.
Qed.

Lemma next_payload_extends_the_last_witness :
  let net := script [ok_200 (body_with_text (JStr "Hi!"))] not_found in
  contents (payload_of "How are you?" (snd (get_response net "Hello" session_start)))
  = [Entry "user" [Part (JStr "Hello")]; Entry "model" [Part (JStr "Hi!")];
     Entry "user" [Part (JStr "How are you?")]].
Proof.
  intros net.
  assert (Hwf : wf session_start) by (unfold wf; simpl; lia).
  exact (next_payload_extends_the_last net "Hello" "How are you?" session_start Hwf).
Defined.

(** * Further properties of the session loop *)

Lemma is_quit_not_empty u : is_quit u = true -> String.eqb u "" = false.
Proof.
  intros H. destruct (String.eqb_spec u ""); [|reflexivity].
  subst. discriminate.
Qed.

Lemma is_clear_not_empty u : is_clear u = true -> String.eqb u "" = false.
Proof.
  intros H. destruct (String.eqb_spec u ""); [|reflexivity].
  subst. discriminate.
Qed.

Lemma is_clear_not_quit u : is_clear u = true -> is_quit u = false.
Proof.
  unfold is_clear, is_quit. intros H. apply String.eqb_eq in H. rewrite H.
  reflexivity.
Qed.

(** X10: a line that, stripped and lower-cased, reads [quit] or [exit] ends
    the session: the loop prints the farewell, makes no HTTP call, leaves
    the history as it is, and the lines after it are never read. *)
Theorem quit_ends_the_session
        (py_str : json -> string) (render_error : console_out -> option exn)
        (net : network) (raw : string) (rest : list stdin_event) (w : world) :
  is_quit (strip raw) = true ->
  main_iteration py_str render_error net (Line raw) w
  = (Break, log_output goodbye (log_output prompt_banner w))
  /\ main_loop py_str render_error net (Line raw :: rest) w
     = (Break, log_output goodbye (log_output prompt_banner w))
  /\ calls (snd (main_loop py_str render_error net (Line raw :: rest) w)) = calls w
  /\ history (snd (main_loop py_str render_error net (Line raw :: rest) w)) = history w.
Proof.
  intros Hq.
  assert (Hit : main_iteration py_str render_error net (Line raw) w
                = (Break, log_output goodbye (log_output prompt_banner w))).
  { unfold main_iteration. rewrite (is_quit_not_empty _ Hq).
    unfold is_quit in Hq. rewrite Hq. reflexivity. }
  assert (Hloop : main_loop py_str render_error net (Line raw :: rest) w
                  = (Break, log_output goodbye (log_output prompt_banner w))).
  { cbn [main_loop]. rewrite Hit. reflexivity. }
  rewrite Hloop. repeat split. exact Hit.
Qed.

Lemma quit_ends_the_session_witness :
  main_loop (fun _ => "") rejects_stray_tags
            (script [] (ok_200 (body_with_text (JStr "Hi!"))))
            [Line (String "160"%char " ExIt " +:+ String "133"%char ""); Line "Hello"]
            session_start
  = (Break, log_output goodbye (log_output prompt_banner session_start)).
Proof.
  apply (quit_ends_the_session (fun _ => "") rejects_stray_tags
           (script [] (ok_200 (body_with_text (JStr "Hi!"))))
           (String "160"%char " ExIt " +:+ String "133"%char "")
           [Line "Hello"] session_start).
  reflexivity.
Defined.

(** X11: a line that, stripped and lower-cased, reads [clear] empties the
    history without any HTTP call, and the loop goes on; the payload of the
    next request then holds the new prompt alone. *)
Theorem clear_command_drops_the_context
        (py_str : json -> string) (render_error : console_out -> option exn)
        (net : network) (raw next_prompt : string) (w : world) :
  is_clear (strip raw) = true ->
  let w' := snd (main_iteration py_str render_error net (Line raw) w) in
  fst (main_iteration py_str render_error net (Line raw) w) = LoopOn
  /\ history w' = []
  /\ calls w' = calls w
  /\ console w' = console w ++ [prompt_banner; cleared_message]
  /\ contents (payload_of next_prompt w') = [Entry "user" [Part (JStr next_prompt)]].
Proof.
  intros Hc.
  assert (Hit : main_iteration py_str render_error net (Line raw) w
                = (LoopOn, log_output cleared_message
                             (Conversation.clear (log_output prompt_banner w)))).
  { unfold main_iteration. rewrite (is_clear_not_empty _ Hc).
    pose proof (is_clear_not_quit _ Hc) as Hq. unfold is_quit in Hq. rewrite Hq.
    unfold is_clear in Hc. rewrite Hc. reflexivity. }
  cbv zeta. rewrite Hit. cbn [fst snd].
  assert (Hh : history (log_output cleared_message
                          (Conversation.clear (log_output prompt_banner w))) = []).
  { apply (history_clear (log_output prompt_banner w)). }
  split; [reflexivity|]. split; [exact Hh|]. split; [reflexivity|].
  split.
  - simpl. rewrite <- app_assoc. reflexivity.
  - rewrite payload_of_eq, Hh. reflexivity.
Qed.

Lemma clear_command_drops_the_context_witness :
  let w := snd (get_response (script [] (ok_200 (body_with_text (JStr "Hi!"))))
                             "Hello" session_start) in
  let w' := snd (main_iteration (fun _ => "") rejects_stray_tags (script [] not_found)
                                (Line (String "160"%char "Clear")) w) in
  history w = [Msg "user" (JStr "Hello"); Msg "model" (JStr "Hi!")]
  /\ history w' = []
  /\ contents (payload_of "Again" w') = [Entry "user" [Part (JStr "Again")]].
Proof.
  intros w w'.
  destruct (clear_command_drops_the_context (fun _ => "") rejects_stray_tags
              (script [] not_found) (String "160"%char "Clear") "Again" w eq_refl)
    as (_ & Hh & _ & _ & Hp).
  split; [reflexivity|]. split; [exact Hh|exact Hp].
Defined.

Lemma lstrip_all_space s : all_space s = true -> lstrip s = EmptyString.
Proof.
  induction s as [|c s IH]; simpl; [reflexivity|].
  intros H. apply andb_prop in H as [Hc Hs]. rewrite Hc. apply IH, Hs.
Qed.

(** X12: a line made of whitespace only, of whatever length, is ignored:
    after the prompt banner nothing is printed, no HTTP call is made and
    the history is as it was. *)
Theorem blank_line_is_ignored
        (py_str : json -> string) (render_error : console_out -> option exn)
        (net : network) (raw : string) (w : world) :
  all_space raw = true ->
  main_iteration py_str render_error net (Line raw) w
  = (LoopOn, log_output prompt_banner w)
  /\ calls (snd (main_iteration py_str render_error net (Line raw) w)) = calls w
  /\ history (snd (main_iteration py_str render_error net (Line raw) w)) = history w.
Proof.
  intros Hs.
  assert (Hit : main_iteration py_str render_error net (Line raw) w
                = (LoopOn, log_output prompt_banner w)).
  { unfold main_iteration, strip. rewrite (lstrip_all_space raw Hs). reflexivity. }
  rewrite Hit. repeat split.
Qed.

Lemma blank_line_is_ignored_witness :
  main_iteration (fun _ => "") rejects_stray_tags (script [] not_found)
                 (Line (String "009"%char (String "160"%char (String "133"%char "  "))))
                 session_start
  = (LoopOn, log_output prompt_banner session_start).
Proof.
  apply (blank_line_is_ignored (fun _ => "") rejects_stray_tags (script [] not_found)
           (String "009"%char (String "160"%char (String "133"%char "  ")))
           session_start).
  reflexivity.
Defined.

(** X13: a line that is neither blank, nor a command, nor too long is one
    exchange: the handler is called once with the stripped line as the
    prompt, so the session makes between one and three HTTP calls for it,
    and the history grows by the user Turn holding the stripped line and
    the model Turn when the exchange succeeded, and not at all otherwise;
    this whatever rich does with what is printed afterwards. *)
Theorem prompt_line_is_one_exchange
        (py_str : json -> string) (render_error : console_out -> option exn)
        (net : network) (raw : string) (w : world) :
  wf w ->
  is_prompt (strip raw) = true ->
  let r := fst (get_response net (strip raw)
                  (log_output chatbot_banner (log_output prompt_banner w))) in
  let w' := snd (main_iteration py_str render_error net (Line raw) w) in
  history w'
  = history w ++ match r with
                 | Returns (Success response_text) =>
                     [Msg "user" (JStr (strip raw)); Msg "model" response_text]
                 | _ => []
                 end
  /\ (calls w < calls w')%nat
  /\ (calls w' <= calls w + 3)%nat.
Proof.
  intros Hwf Hp. cbv zeta.
  pose proof (main_iteration_prompt_world py_str render_error net raw w Hp) as Hco.
  set (w1 := log_output chatbot_banner (log_output prompt_banner w)) in *.
  assert (Hwf1 : wf w1) by exact Hwf.
  pose proof (get_response_history net (strip raw) w1 Hwf1) as Hh.
  destruct (get_response_shape net (strip raw) w1) as (k & s & Hk & _ & _ & _ & Hc & _).
  rewrite (console_only_history _ _ Hco).
  destruct Hco as (_ & _ & Hcalls & _). rewrite Hcalls, Hc.
  change (calls w1) with (calls w). split; [exact Hh|lia].
Qed.

Lemma prompt_line_is_one_exchange_witness :
  let net := script [too_many_requests; ok_200 (body_with_text (JStr "Hi!"))] not_found in
  let w' := snd (main_iteration (fun _ => "") rejects_stray_tags net
                                (Line (" Hello" +:+ String "160"%char ""))
                                session_start) in
  history w' = [Msg "user" (JStr "Hello"); Msg "model" (JStr "Hi!")]
  /\ (calls session_start < calls w')%nat
  /\ (calls w' <= calls session_start + 3)%nat.
Proof.
  intros net w'.
  assert (Hwf : wf session_start) by (unfold wf; simpl; lia).
  exact (prompt_line_is_one_exchange (fun _ => "") rejects_stray_tags net
           (" Hello" +:+ String "160"%char "") session_start Hwf eq_refl).
Defined.

(** X14: a non-empty string returned by [get_response] is handed to
    [console.print] unchanged; a string that holds a code fence, a [#] or a
    [*] is handed over twice, first as a Markdown object by
    [format_response] and then once more as markup text by [main].  This
    when rich renders what it is handed. *)
Theorem reply_is_printed_in_full
        (py_str : json -> string) (render_error : console_out -> option exn)
        (net : network) (raw : string) (w w2 : world) (o : outcome) (s : string) :
  is_prompt (strip raw) = true ->
  get_response net (strip raw)
               (log_output chatbot_banner (log_output prompt_banner w))
  = (Returns o, w2) ->
  returned o = JStr s ->
  s <> "" ->
  (has_markdown s = true -> render_error (PrintedMarkdown s) = None) ->
  render_error (Printed s) = None ->
  main_iteration py_str render_error net (Line raw) w
  = (LoopOn,
     if has_markdown s
     then log_output (Printed s) (log_output (PrintedMarkdown s) w2)
     else log_output (Printed s) w2)
  /\ format_response py_str render_error (JStr s) w2
     = Ok (s, if has_markdown s then log_output (PrintedMarkdown s) w2 else w2).
Proof.
  intros Hp Hget Hret Hne Hmd Hpr.
  assert (Heq : String.eqb s "" = false).
  { destruct (String.eqb_spec s ""); [contradiction|reflexivity]. }
  assert (Hf : format_response py_str render_error (JStr s) w2
               = Ok (s, if has_markdown s then log_output (PrintedMarkdown s) w2 else w2)).
  { unfold format_response, console_print. unfold has_markdown in *.
    destruct (str_in "```" s || str_in "#" s || str_in "*" s); [|reflexivity].
    rewrite (Hmd eq_refl). reflexivity. }
  split; [|exact Hf].
  rewrite (main_iteration_prompt py_str render_error net raw w Hp), Hget, Hret, Hf.
  simpl truthy. rewrite Heq. simpl negb. cbv iota.
  unfold console_print. rewrite Hpr.
  destruct (has_markdown s); reflexivity.
Qed.

Lemma reply_is_printed_in_full_witness :
  let net := script [ok_200 (body_with_text (JStr "# Title"))] not_found in
  let w1 := log_output chatbot_banner (log_output prompt_banner session_start) in
  let w2 := snd (get_response net "Hello" w1) in
  main_iteration (fun _ => "") rejects_stray_tags net (Line "Hello") session_start
  = (LoopOn, log_output (Printed "# Title")
               (log_output (PrintedMarkdown "# Title") w2)).
Proof.
  intros net w1 w2.
  apply (reply_is_printed_in_full (fun _ => "") rejects_stray_tags net "Hello"
           session_start w2 (Success (JStr "# Title")) "# Title"); try reflexivity.
  discriminate.
Defined.



(** X15: a reply whose text Python holds false (the empty string, [null],
    [0], an empty list) is a successful exchange for [get_response], which
    stores both Turns, yet [main] reports it as
    ["Error: Empty response from model"]. *)
Theorem empty_reply_is_stored_but_reported
        (py_str : json -> string) (render_error : console_out -> option exn)
        (net : network) (raw : string) (w w2 : world) (response_text : json) :
  wf w ->
  is_prompt (strip raw) = true ->
  get_response net (strip raw)
               (log_output chatbot_banner (log_output prompt_banner w))
  = (Returns (Success response_text), w2) ->
  truthy response_text = false ->
  main_iteration py_str render_error net (Line raw) w
  = (LoopOn, log_output empty_response_message w2)
  /\ history (snd (main_iteration py_str render_error net (Line raw) w))
     = history w ++ [Msg "user" (JStr (strip raw)); Msg "model" response_text].
Proof.
  intros Hwf Hp Hget Ht.
  assert (Hit : main_iteration py_str render_error net (Line raw) w
                = (LoopOn, log_output empty_response_message w2)).
  { rewrite (main_iteration_prompt py_str render_error net raw w Hp), Hget.
    simpl returned. rewrite Ht. reflexivity. }
  split; [exact Hit|]. rewrite Hit.
  pose proof (get_response_history net (strip raw)
                (log_output chatbot_banner (log_output prompt_banner w)) Hwf) as Hh.
  rewrite Hget in Hh. exact Hh.
Qed.

Lemma empty_reply_is_stored_but_reported_witness :
  let net := script [ok_200 (body_with_text (JStr ""))] not_found in
  let w1 := log_output chatbot_banner (log_output prompt_banner session_start) in
  main_iteration (fun _ => "") rejects_stray_tags net
                 (Line ("Hello" +:+ String "160"%char "")) session_start
  = (LoopOn, log_output empty_response_message (snd (get_response net "Hello" w1)))
  /\ history (snd (main_iteration (fun _ => "") rejects_stray_tags net
                                   (Line ("Hello" +:+ String "160"%char ""))
                                   session_start))
     = history session_start ++ [Msg "user" (JStr "Hello"); Msg "model" (JStr "")].
Proof.
  intros net w1.
  assert (Hwf : wf session_start) by (unfold wf; simpl; lia).
  apply (empty_reply_is_stored_but_reported (fun _ => "") rejects_stray_tags net
           ("Hello" +:+ String "160"%char "") session_start
           (snd (get_response net "Hello" w1)) (JStr "") Hwf); reflexivity.
Defined.

(** X16: a [KeyboardInterrupt] ends the session with the farewell, whether
    it strikes while [input()] waits or while [requests.post] is under way:
    [get_response] lets it through, no retry is made, the history is as it
    was and the lines after it are never read. *)
Theorem interrupt_ends_the_session
        (py_str : json -> string) (render_error : console_out -> option exn)
        (net : network) (raw : string) (rest : list stdin_event) (w : world)
        (message : string) :
  is_prompt (strip raw) = true ->
  net (calls w) (payload_of (strip raw) w) = PostRaises (Exn KeyboardInterrupt message) ->
  main_loop py_str render_error net (Line raw :: rest) w
  = (Break, log_output goodbye
              (count_call (log_output chatbot_banner (log_output prompt_banner w))))
  /\ main_loop py_str render_error net
               (InputRaises (Exn KeyboardInterrupt message) :: rest) w
     = (Break, log_output goodbye (log_output prompt_banner w))
  /\ history (snd (main_loop py_str render_error net (Line raw :: rest) w)) = history w.
Proof.
  intros Hp Hnet.
  set (w1 := log_output chatbot_banner (log_output prompt_banner w)).
  assert (Hget : get_response net (strip raw) w1
                 = (Propagates (Exn KeyboardInterrupt message), count_call w1)).
  { rewrite get_response_eq. change (range MAX_RETRIES) with [0; 1; 2].
    cbn [retry_loop]. unfold attempt_body.
    change (net (calls w1) (payload_of (strip raw) w1))
      with (net (calls w) (payload_of (strip raw) w)).
    rewrite Hnet. reflexivity. }
  assert (Hloop : main_loop py_str render_error net (Line raw :: rest) w
                  = (Break, log_output goodbye (count_call w1))).
  { cbn [main_loop]. rewrite (main_iteration_prompt py_str render_error net raw w Hp).
    fold w1. rewrite Hget. reflexivity. }
  rewrite Hloop. repeat split.
Qed.

Lemma interrupt_ends_the_session_witness :
  let net := script [PostRaises (Exn KeyboardInterrupt "")]
                    (ok_200 (body_with_text (JStr "Hi!"))) in
  main_loop (fun _ => "") rejects_stray_tags net [Line "Hello"; Line "Again"]
            session_start
  = (Break, log_output goodbye
              (count_call (log_output chatbot_banner
                             (log_output prompt_banner session_start)))).
Proof.
  intros net.
  apply (interrupt_ends_the_session (fun _ => "") rejects_stray_tags net "Hello"
           [Line "Again"] session_start ""); reflexivity.
Defined.

Lemma main_iteration_input_exception py_str render_error net e w :
  is_Exception e = true ->
  main_iteration py_str render_error net (InputRaises e) w
  = match render_error (error_report e) with
    | None => (LoopOn, log_output (error_report e) (log_output prompt_banner w))
    | Some e' => (Escapes e', log_output prompt_banner w)
    end.
Proof.
  unfold main_iteration, main_except, console_print, is_Exception.
  destruct (exn_class_of e); intros H; try discriminate;
    change (Printed (nl +:+ "[red]An unexpected error occurred: " +:+ exn_str e +:+ "[/red]"))
      with (error_report e);
    destruct (render_error (error_report e)); reflexivity.
Qed.

(** X17: an exception that is an [Exception], raised by [input()], and
    whose report rich renders does not end the session: the loop prints the
    report and asks again.  When [input()] keeps raising it, as it does
    with [EOFError] once the input is exhausted, the loop never leaves:
    after any number of rounds it is still going on, having printed two
    lines per round, and no HTTP call has been made.  When rich cannot
    render the report, the same exception ends [main] at once. *)
Theorem input_exception_never_ends_the_loop
        (py_str : json -> string) (render_error : console_out -> option exn)
        (net : network) (e : exn) (n : nat) (w : world) :
  is_Exception e = true ->
  match render_error (error_report e) with
  | None =>
      let w' := snd (main_loop py_str render_error net (replicate n (InputRaises e)) w) in
      fst (main_loop py_str render_error net (replicate n (InputRaises e)) w) = LoopOn
      /\ calls w' = calls w
      /\ history w' = history w
      /\ length (console w') = (length (console w) + 2 * n)%nat
  | Some e' =>
      main_loop py_str render_error net (replicate (S n) (InputRaises e)) w
      = (Escapes e', log_output prompt_banner w)
  end.
Proof.
  intros He.
  pose proof (fun w => main_iteration_input_exception py_str render_error net e w He)
    as Hit.
  destruct (render_error (error_report e)) as [e'|].
  - cbn [replicate main_loop]. rewrite Hit. reflexivity.
  - cbv zeta. revert w. induction n as [|n IH]; intros w.
    + simpl. repeat split. lia.
    + cbn [replicate main_loop]. rewrite Hit.
      destruct (IH (log_output (error_report e) (log_output prompt_banner w)))
        as (Hf & Hc & Hh & Hl).
      rewrite Hf, Hc, Hh, Hl. repeat split.
      unfold log_output. cbn [console]. rewrite !length_app. simpl. lia.
Qed.

Lemma input_exception_never_ends_the_loop_witness :
  fst (main_loop (fun _ => "") rejects_stray_tags (script [] not_found)
                 (replicate 5 (InputRaises EOFError)) session_start) = LoopOn
  /\ calls (snd (main_loop (fun _ => "") rejects_stray_tags (script [] not_found)
                           (replicate 5 (InputRaises EOFError)) session_start))
     = calls session_start.
Proof.
  pose proof (input_exception_never_ends_the_loop (fun _ => "") rejects_stray_tags
                (script [] not_found) EOFError 5 session_start eq_refl) as H.
  change (rejects_stray_tags (error_report EOFError)) with (@None exn) in H.
  cbv iota zeta in H. destruct H as (Hf & Hc & _ & _).
  split; [exact Hf|exact Hc].
Defined.

Lemma main_iteration_calls py_str render_error net ev w :
  (calls w <= calls (snd (main_iteration py_str render_error net ev w)) <= calls w + 3)%nat.
Proof.
  destruct ev as [raw|e].
  - destruct (is_prompt (strip raw)) eqn:Hp.
    + destruct (main_iteration_prompt_world py_str render_error net raw w Hp)
        as (_ & _ & Hcalls & _).
      rewrite Hcalls.
      destruct (get_response_shape net (strip raw)
                  (log_output chatbot_banner (log_output prompt_banner w)))
        as (k & s & Hk & _ & _ & _ & Hc & _).
      rewrite Hc. cbn [calls log_output]. lia.
    + rewrite (main_iteration_not_prompt py_str render_error net raw w Hp).
      destruct (String.eqb (strip raw) ""); [simpl; lia|].
      destruct (is_quit (strip raw)); [simpl; lia|].
      destruct (is_clear (strip raw)); simpl; lia.
  - unfold main_iteration.
    match goal with |- context [main_except render_error e ?w0] =>
      destruct (console_only_main_except render_error e w0) as (_ & _ & Hcalls & _) end.
    rewrite Hcalls. simpl. lia.
Qed.

(** X18: a session makes at most [MAX_RETRIES] HTTP calls per line read,
    and never any but through [get_response]: after any series of input
    events the count of calls has not gone down and has grown by at most
    three times their number. *)
Theorem session_calls_are_bounded
        (py_str : json -> string) (render_error : console_out -> option exn)
        (net : network) (inputs : list stdin_event) (w : world) :
  let w' := snd (main_loop py_str render_error net inputs w) in
  (calls w <= calls w')%nat
  /\ (Z.of_nat (calls w') <= Z.of_nat (calls w) + MAX_RETRIES * Z.of_nat (length inputs)).
Proof.
  cbv zeta. revert w. induction inputs as [|ev rest IH]; intros w.
  - simpl. unfold MAX_RETRIES. lia.
  - cbn [main_loop].
    pose proof (main_iteration_calls py_str render_error net ev w) as Hc.
    destruct (main_iteration py_str render_error net ev w) as [[| |e] w1]; cbn [snd] in *.
    + specialize (IH w1). unfold MAX_RETRIES in *. simpl length. lia.
    + unfold MAX_RETRIES. simpl length. lia.
    + unfold MAX_RETRIES. simpl length. lia.
Qed.

(** X19: a [Conversation] behaves as a plain sequence of Turns: whatever
    the roles given ([add_message] checks neither the role nor the order
    of roles), every [add_message] puts one Turn at the end and leaves the
    earlier ones as they are, and [clear] leaves none; so the history
    after any series of the two is the one the same series gives on a
    list. *)
Theorem conversation_is_a_sequence (w : world) (ops : list store_op) :
  wf w ->
  history (run_ops ops w) = fold_left replay_op ops (history w)
  /\ (forall role content,
         history (Conversation.add_message role content (run_ops ops w))
         = history (run_ops ops w) ++ [Msg role content])
  /\ history (Conversation.clear (run_ops ops w)) = [].
Proof.
  intros Hwf.
  assert (Hwf' : wf (run_ops ops w)).
  { revert w Hwf. induction ops as [|op ops IH]; intros w Hwf; [exact Hwf|].
    simpl. apply IH, wf_apply_op, Hwf. }
  split; [apply (history_run_ops ops w Hwf)|]. split.
  - intros r c. apply history_add_message, Hwf'.
  - apply history_clear.
Qed.

Lemma conversation_is_a_sequence_witness :
  history (run_ops [Append "model" (JStr "a"); Append "model" (JStr "b");
                    Clear; Append "system" (JStr "c")] session_start)
  = [Msg "system" (JStr "c")].
Proof.
  assert (Hwf : wf session_start) by (unfold wf; simpl; lia).
  exact (proj1 (conversation_is_a_sequence session_start
                  [Append "model" (JStr "a"); Append "model" (JStr "b");
                   Clear; Append "system" (JStr "c")] Hwf)).
Defined.

(** X20: a 200 response that is not blocked and whose first candidate's
    first part has no [text] field is reported as an error, not as an empty
    reply: the [KeyError] raised at line 92 reaches the outer handler and
    [get_response] returns ["An error occurred: 'text'"]; nothing is stored. *)
Theorem part_without_text_is_an_error
        (net : network) (prompt : string) (w : world)
        (o candidate content part : list (string * json))
        (candidates parts : list json) (body_text : string) :
  net (calls w) (payload_of prompt w) = Response 200 (Ok (JObj o)) body_text ->
  not_blocked o ->
  assoc "candidates" o = Some (JArr (JObj candidate :: candidates)) ->
  assoc "content" candidate = Some (JObj content) ->
  assoc "parts" content = Some (JArr (JObj part :: parts)) ->
  assoc "text" part = None ->
  get_response net prompt w = (Returns (OtherError "'text'"), count_call w)
  /\ returned (OtherError "'text'") = JStr "An error occurred: 'text'"
  /\ history (snd (get_response net prompt w)) = history w.
Proof.
  intros H200 Hnb Hc Hcontent Hp Ht.
  assert (Hget : get_response net prompt w = (Returns (OtherError "'text'"), count_call w)).
  { rewrite get_response_eq. change (range MAX_RETRIES) with [0; 1; 2].
    cbn [retry_loop].
    rewrite (attempt_body_200 _ _ _ _ _ (JObj o) body_text) by exact H200.
    unfold on_parsed. rewrite (interpret_unblocked o Hnb). simpl. rewrite Hc. simpl.
    rewrite Hcontent. simpl. rewrite Hp. simpl. rewrite Ht. reflexivity. }
  rewrite Hget. repeat split.
Qed.

Lemma part_without_text_is_an_error_witness :
  get_response (script [ok_200 body_with_function_call] not_found) "Hello" session_start
  = (Returns (OtherError "'text'"), count_call session_start).
Proof.
  apply (part_without_text_is_an_error
           (script [ok_200 body_with_function_call] not_found) "Hello" session_start
           [("candidates",
             JArr [JObj [("content",
                          JObj [("parts",
                                 JArr [JObj [("functionCall", JObj [("name", JStr "f")])]])])]])]
           [("content",
             JObj [("parts", JArr [JObj [("functionCall", JObj [("name", JStr "f")])]])])]
           [("parts", JArr [JObj [("functionCall", JObj [("name", JStr "f")])]])]
           [("functionCall", JObj [("name", JStr "f")])] [] [] ""); try reflexivity.
  left. reflexivity.
Defined.

(** X21: the backoff after a 429 goes by the index of the attempt, not by
    the number of 429s received: when the first attempt fails with a
    [RequestException] and the second receives the first 429, the client
    sleeps [RATE_LIMIT_DELAY] and then [RATE_LIMIT_DELAY * 2] seconds, and
    the third attempt ends the call whatever it receives. *)
Theorem backoff_goes_by_attempt_index
        (net : network) (prompt : string) (w : world) (e : exn) :
  raised_by (net (calls w) (payload_of prompt w)) = Some e ->
  is_RequestException e = true ->
  status_of (net (S (calls w)) (payload_of prompt w)) = Some 429 ->
  sleeps (snd (get_response net prompt w))
  = sleeps w ++ [RATE_LIMIT_DELAY; RATE_LIMIT_DELAY * 2]
  /\ calls (snd (get_response net prompt w)) = (3 + calls w)%nat.
Proof.
  intros H0 R0 H1.
  remember (snd (get_response net prompt w)) as w' eqn:Hw.
  rewrite get_response_eq in Hw. change (range MAX_RETRIES) with [0; 1; 2] in Hw.
  cbn [retry_loop] in Hw.
  rewrite (attempt_body_raised _ _ _ _ _ e) in Hw by exact H0.
  unfold on_exception in Hw. rewrite R0 in Hw.
  change (0 <? MAX_RETRIES - 1) with true in Hw. cbv iota in Hw. cbn [retry_loop] in Hw.
  rewrite attempt_body_429 in Hw by exact H1.
  change (1 <? MAX_RETRIES - 1) with true in Hw. cbv iota in Hw. cbn [retry_loop] in Hw.
  match type of Hw with context [attempt_body net prompt ?d 2 ?w2] =>
    pose proof (attempt_body_shape net prompt d 2 w2) as H2;
    destruct (attempt_body net prompt d 2 w2) as [w3|o w3|e3 w3] end.
  - destruct H2 as [Hlt _]. discriminate.
  - destruct H2 as (_ & Hc & Hs). cbn [snd] in Hw. subst w'. rewrite Hc, Hs.
    cbn [sleeps calls sleep count_call]. rewrite <- app_assoc. split; reflexivity.
  - subst w3. cbn [snd] in Hw. subst w'. cbn [sleeps calls sleep count_call].
    rewrite <- app_assoc. split; reflexivity.
Qed.

Lemma backoff_goes_by_attempt_index_witness :
  let net := script [connection_error; too_many_requests;
                     ok_200 (body_with_text (JStr "Hi!"))] not_found in
  sleeps (snd (get_response net "Hello" session_start))
  = sleeps session_start ++ [RATE_LIMIT_DELAY; RATE_LIMIT_DELAY * 2]
  /\ calls (snd (get_response net "Hello" session_start)) = (3 + calls session_start)%nat.
Proof.
  intros net.
  apply (backoff_goes_by_attempt_index net "Hello" session_start
           (Exn RequestException "Connection refused")); reflexivity.
Defined.

Lemma main_iteration_history py_str render_error net ev w :
  wf w ->
  is_clear_event ev = false ->
  exists added,
    history (snd (main_iteration py_str render_error net ev w)) = history w ++ added
    /\ (added = [] \/ exists prompt response_text,
                        added = [Msg "user" (JStr prompt); Msg "model" response_text]).
Proof.
  intros Hwf Hnc. destruct ev as [raw|e].
  - destruct (is_prompt (strip raw)) eqn:Hp.
    + rewrite (console_only_history _ _
                 (main_iteration_prompt_world py_str render_error net raw w Hp)).
      pose proof (get_response_history net (strip raw)
                    (log_output chatbot_banner (log_output prompt_banner w)) Hwf)
        as Hh.
      eexists. split; [exact Hh|].
      destruct (fst (get_response net (strip raw) _)) as [[]|]; simpl; eauto.
    + exists []. rewrite app_nil_r. split; [|auto].
      rewrite (main_iteration_not_prompt py_str render_error net raw w Hp).
      simpl in Hnc. rewrite Hnc.
      destruct (String.eqb (strip raw) ""); [reflexivity|].
      destruct (is_quit (strip raw)); reflexivity.
  - exists []. rewrite app_nil_r. split; [|auto]. unfold main_iteration.
    match goal with |- context [main_except render_error e ?w0] =>
      rewrite (console_only_history _ _ (console_only_main_except render_error e w0)) end.
    reflexivity.
Qed.

(** X23: between two [clear] commands the history of a session is an
    append-only log of exchanges: over any series of input events none of
    which is a [clear], the history the session started from is kept as it
    is and what is added after it is a series of user/model pairs, at most
    one pair per event. *)
Theorem session_history_is_append_only
        (py_str : json -> string) (render_error : console_out -> option exn)
        (net : network) (inputs : list stdin_event) (w : world) :
  wf w ->
  forallb (fun ev => negb (is_clear_event ev)) inputs = true ->
  exists (added : list msg) (n : nat),
    history (snd (main_loop py_str render_error net inputs w)) = history w ++ added
    /\ (n <= length inputs)%nat
    /\ map role added = concat (replicate n ["user"; "model"]).
Proof.
  revert w. induction inputs as [|ev rest IH]; intros w Hwf Hnc.
  - exists [], 0%nat. simpl. rewrite app_nil_r. auto.
  - simpl in Hnc. apply andb_prop in Hnc as [Hev Hrest].
    apply negb_true_iff in Hev.
    destruct (main_iteration_history py_str render_error net ev w Hwf Hev)
      as (a1 & Hh1 & Ha1).
    pose proof (wf_main_iteration py_str render_error net ev w Hwf) as Hwf1.
    cbn [main_loop].
    destruct (main_iteration py_str render_error net ev w) as [[| |e] w1]; cbn [snd] in *.
    + destruct (IH w1 Hwf1 Hrest) as (a2 & n & Hh2 & Hn & Hr).
      destruct Ha1 as [->|(p & t & ->)].
      * exists a2, n. rewrite Hh2, Hh1, app_nil_r. simpl length. auto.
      * exists ([Msg "user" (JStr p); Msg "model" t] ++ a2), (S n).
        rewrite Hh2, Hh1, <- app_assoc. simpl. rewrite Hr. repeat split. lia.
    + destruct Ha1 as [->|(p & t & ->)].
      * exists [], 0%nat. rewrite Hh1. simpl. repeat split. lia.
      * exists [Msg "user" (JStr p); Msg "model" t], 1%nat.
        rewrite Hh1. simpl. repeat split. lia.
    + destruct Ha1 as [->|(p & t & ->)].
      * exists [], 0%nat. rewrite Hh1. simpl. repeat split. lia.
      * exists [Msg "user" (JStr p); Msg "model" t], 1%nat.
        rewrite Hh1. simpl. repeat split. lia.
Qed.

Lemma session_history_is_append_only_witness :
  let net := script [ok_200 (body_with_text (JStr "Hi!")); server_error;
                     ok_200 (body_with_text (JStr "Fine."))] not_found in
  exists (added : list msg) (n : nat),
    history (snd (main_loop (fun _ => "") rejects_stray_tags net
                            [Line "Hello"; Line (String "160"%char ""); Line "What?";
                             Line "How are you?"]
                            session_start))
    = history session_start ++ added
    /\ (n <= 4)%nat
    /\ map role added = concat (replicate n ["user"; "model"]).
Proof.
  intros net.
  assert (Hwf : wf session_start) by (unfold wf; simpl; lia).
  exact (session_history_is_append_only (fun _ => "") rejects_stray_tags net
           [Line "Hello"; Line (String "160"%char ""); Line "What?"; Line "How are you?"]
           session_start Hwf eq_refl).
Defined.
